(** * contrib/sepgsql/hooks.c: hook entry points of SE-PostgreSQL

    A shallow embedding of the hook entry points of [hooks.c] and the
    properties of their dispatch, context save/restore and client-label
    switching.

    The C code runs inside one backend process and talks to its
    surroundings through global variables, through [ereport]/[elog]
    (a [longjmp] to the innermost [PG_TRY], or the end of the process)
    and through function pointers saved at load time.  The embedding
    keeps these three features:
    - the globals are the fields of a record [world];
    - a computation is a function from the state it starts in to an
      outcome (a value or a failure), the state it leaves behind, and
      the list of outbound calls it made, in order;
    - the saved hooks, and every function that [hooks.c] only calls,
      are variables of the development. *)

From Stdlib Require Import ZArith List String Bool Lia.
Import ListNotations.

Set Implicit Arguments.
Local Open Scope string_scope.
Local Open Scope list_scope.
Local Open Scope Z_scope.

(** ** Host types that [hooks.c] inspects *)

Definition Oid := Z.
Definition Datum := Z.
Definition label := string.          (* a non-NULL [char *] security context *)

(** Catalog identifiers ([catalog/pg_*.h]). *)
Definition DatabaseRelationId : Oid := 1262.
Definition NamespaceRelationId : Oid := 2615.
Definition RelationRelationId : Oid := 1259.
Definition ProcedureRelationId : Oid := 1255.

(** [libpq/auth.h] / [c.h] *)
Definition STATUS_OK : Z := 0.
Definition STATUS_ERROR : Z := -1.

(** Node tags ([nodes/nodes.h]).  The tags that [hooks.c] names are
    constructors; [T_Other n] stands for any other tag. *)
Inductive NodeTag :=
| T_Invalid
| T_CreateStmt
| T_ViewStmt
| T_CreateSeqStmt
| T_CompositeTypeStmt
| T_CreateForeignTableStmt
| T_SelectStmt
| T_InsertStmt
| T_DeleteStmt
| T_UpdateStmt
| T_CreatedbStmt
| T_LoadStmt
| T_AlterTableStmt
| T_ClusterStmt
| T_VacuumStmt
| T_Other (n : Z).

Definition NodeTag_eq_dec (a b : NodeTag) : {a = b} + {a <> b}.
Proof. decide equality. apply Z.eq_dec. Defined.

(** [DefElem]: [defname] and the string held by the [Value] node [arg]
    (what [strVal(defel->arg)] reads). *)
Record DefElem := { defname : string; arg : string }.

(** A parse tree, as far as this file looks into it. *)
Inductive Node :=
| CreatedbStmt (dbname : string) (options : list DefElem)
| LoadStmt (filename : string)
| Stmt (type : NodeTag).

Definition nodeTag (parsetree : Node) : NodeTag :=
  match parsetree with
  | CreatedbStmt _ _ => T_CreatedbStmt
  | LoadStmt _ => T_LoadStmt
  | Stmt t => t
  end.

(** [((CreatedbStmt * ) parsetree)->options] *)
Definition CreatedbStmt_options (parsetree : Node) : list DefElem :=
  match parsetree with
  | CreatedbStmt _ options => options
  | _ => []
  end.

Inductive CmdType :=
| CMD_UNKNOWN | CMD_SELECT | CMD_UPDATE | CMD_INSERT | CMD_DELETE
| CMD_UTILITY | CMD_NOTHING.

Record QueryDesc := { operation : CmdType; plannedstmt : Z }.
Record Port := { sock : Z }.
Record FmgrInfo := { fn_oid : Oid; fn_mcxt : Z }.
Record ObjectAddress := { classId : Oid; objectId : Oid; objectSubId : Z }.

(** Opaque handles, passed on untouched. *)
Definition RangeTblEntry := Z.
Definition ParamListInfo := Z.
Definition DestReceiver := Z.

Inductive ObjectAccessType :=
| OAT_POST_CREATE
| OAT_unknown (code : Z).

Inductive FmgrHookEventType :=
| FHET_START | FHET_END | FHET_ABORT
| FHET_unknown (code : Z).

(** [sepgsql.h] *)
Inductive sepgsql_mode_t :=
| SEPGSQL_MODE_DEFAULT        (* enforcing *)
| SEPGSQL_MODE_PERMISSIVE
| SEPGSQL_MODE_INTERNAL
| SEPGSQL_MODE_DISABLED.

Inductive sepg_class := SEPG_CLASS_PROCESS | SEPG_CLASS_DB_PROCEDURE.
Inductive sepg_perm := SEPG_PROCESS__TRANSITION | SEPG_DB_PROCEDURE__EXECUTE.
Inductive audit_name_t :=
| AUDIT_NULL | SEPGSQL_AVC_NOAUDIT | AUDIT_NAME (name : string).

(** ** Failures *)

Inductive elevel := ERROR | FATAL | PANIC.

Inductive sqlerrcode :=
| ERRCODE_INTERNAL_ERROR
| ERRCODE_INSUFFICIENT_PRIVILEGE
| ERRCODE_OBJECT_NOT_IN_PREREQUISITE_STATE
| ERRCODE_other (code : Z).

(** Why a computation did not return: an [ereport]/[elog] at [ERROR] or
    above, or the process dying on a failed [Assert] or a bad pointer. *)
Inductive failure :=
| Ereport (lvl : elevel) (code : sqlerrcode) (msg : string)
| FailedAssertion (condition : string)
| Segfault.

(** Only [ERROR] unwinds to the innermost [PG_TRY]; [FATAL], [PANIC],
    a trap and a crash end the backend without running any handler. *)
Definition unwinds (f : failure) : bool :=
  match f with
  | Ereport ERROR _ _ => true
  | _ => false
  end.

Inductive outcome (A : Type) :=
| Ok (a : A)
| Err (f : failure).
Arguments Err {A} f.

(** Does the caller get control back (by a return, or by an error
    unwinding through it)? *)
Definition returns_control {A} (o : outcome A) : bool :=
  match o with
  | Ok _ => true
  | Err f => unwinds f
  end.

(** ** Outbound calls

    Every call that leaves [hooks.c] is recorded, with its arguments,
    in the order in which it is made. *)

Inductive extension_point :=
| object_access | client_auth | exec_check_perms | needs_fmgr
| fmgr | ProcessUtility | ExecutorStart.

Inductive call :=
| call_next (p : extension_point)        (* the previously installed hook *)
| call_standard (p : extension_point)    (* the host's own implementation *)
| call_getpeercon_raw (fd : Z)
| call_avc_trusted_proc (functionId : Oid)
| call_avc_check_perms (tobject : ObjectAddress) (tclass : sepg_class)
    (required : sepg_perm) (audit_name : audit_name_t) (abort : bool)
| call_avc_check_perms_label (tcontext : label) (tclass : sepg_class)
    (required : sepg_perm) (audit_name : audit_name_t) (abort : bool)
| call_dml_privileges (rangeTabls : list RangeTblEntry) (abort : bool)
| call_database_post_create (databaseId : Oid) (dtemplate : option string)
| call_schema_post_create (namespaceId : Oid)
| call_relation_post_create (relOid : Oid)
| call_attribute_post_create (relOid : Oid) (attnum : Z)
| call_proc_post_create (functionId : Oid).

(** ** Computations *)

Section Computation.
Variable S : Type.

Record result (A : Type) := Result {
  out : outcome A;          (* value returned, or failure raised *)
  final : S;                (* state left behind, also on failure *)
  calls : list call         (* outbound calls made, oldest first *)
}.

Definition Comp (A : Type) := S -> result A.

Definition ret {A} (a : A) : Comp A :=
  fun s => Result (Ok a) s [].

Definition raise {A} (f : failure) : Comp A :=
  fun s => Result (Err f) s [].

Definition bind {A B} (m : Comp A) (k : A -> Comp B) : Comp B :=
  fun s =>
    let r := m s in
    match out r with
    | Ok a =>
        let r' := k a (final r) in
        Result (out r') (final r') (calls r ++ calls r')
    | Err f => Result (Err f) (final r) (calls r)
    end.

Definition get : Comp S := fun s => Result (Ok s) s [].
Definition gets {A} (f : S -> A) : Comp A := fun s => Result (Ok (f s)) s [].
Definition modify (f : S -> S) : Comp unit := fun s => Result (Ok tt) (f s) [].
Definition emit (c : call) : Comp unit := fun s => Result (Ok tt) s [c].

(** Modelled from the spec: the macros of [utils/elog.h] are not part
    of these sources.  [PG_TRY(); { body } PG_CATCH(); { handler }
    PG_END_TRY();] is the "always-run cleanup step" around "error
    unwinding through a nested dispatch": the handler runs in the state
    the body left when it raised an [ERROR]; a session-ending failure
    stops the process where it happened. *)
Definition PG_TRY {A} (body : Comp A) (handler : failure -> Comp A) : Comp A :=
  fun s =>
    let r := body s in
    match out r with
    | Ok _ => r
    | Err f =>
        if unwinds f then
          let r' := handler f (final r) in
          Result (out r') (final r') (calls r ++ calls r')
        else r
    end.

Definition PG_RE_THROW {A} (f : failure) : Comp A := raise f.

Definition ereport {A} (lvl : elevel) (code : sqlerrcode) (msg : string) : Comp A :=
  raise (Ereport lvl code msg).

Definition elog {A} (lvl : elevel) (msg : string) : Comp A :=
  raise (Ereport lvl ERRCODE_INTERNAL_ERROR msg).

(** Modelled from the spec: the [Assert] macro of [c.h] is not part of
    these sources.  A contract violation "must abort loudly rather
    than degrade silently": a false condition traps and the process
    dies there (the behaviour of a build that checks assertions). *)
Definition Assert (condition : bool) (text : string) : Comp unit :=
  if condition then ret tt else raise (FailedAssertion text).
End Computation.

Arguments ret {S A} a.
Arguments raise {S A} f.
Arguments bind {S A B} m k.
Arguments get {S}.
Arguments gets {S A} f.
Arguments modify {S} f.
Arguments emit {S} c.
Arguments PG_TRY {S A} body handler.
Arguments PG_RE_THROW {S A} f.
Arguments ereport {S A} lvl code msg.
Arguments elog {S A} lvl msg.
Arguments Assert {S} condition text.

Declare Scope comp_scope.
Delimit Scope comp_scope with comp.
Notation "'do' x <- m ; k" := (bind m (fun x => k))
  (at level 10, x name, m at level 100, k at level 200) : comp_scope.
Notation "m ;; k" := (bind m (fun _ => k))
  (at level 100, k at level 200, right associativity) : comp_scope.
Local Open Scope comp_scope.

(** ** Session state and the functions [hooks.c] calls *)

(** [sepgsql_context_info_t]: contextual information on DDL commands. *)
Record sepgsql_context_info_t := {
  cmdtype : NodeTag;
  createdb_dtemplate : option string     (* NULL unless given by the user *)
}.

(** The private area of one function activation, reached through
    [*private] ([fmgr_hook]). *)
Record fmgr_stack := {
  old_label : option label;
  new_label : option label;
  next_private : Datum
}.

Section World.
(** Everything else the backend holds (catalogs, the loaded policy,
    the access vector cache, state of other modules). *)
Variable Host : Type.

Record world := {
  client_label : option label;                 (* label.c *)
  sepgsql_mode : sepgsql_mode_t;               (* selinux.c *)
  sepgsql_context_info : sepgsql_context_info_t;
  sepgsql_permissive : bool;                   (* GUC sepgsql.permissive *)
  sepgsql_debug_audit : bool;                  (* GUC sepgsql.debug_audit *)
  host : Host
}.

Definition with_client_label (l : option label) (w : world) : world :=
  {| client_label := l;
     sepgsql_mode := sepgsql_mode w;
     sepgsql_context_info := sepgsql_context_info w;
     sepgsql_permissive := sepgsql_permissive w;
     sepgsql_debug_audit := sepgsql_debug_audit w;
     host := host w |}.

Definition with_mode (m : sepgsql_mode_t) (w : world) : world :=
  {| client_label := client_label w;
     sepgsql_mode := m;
     sepgsql_context_info := sepgsql_context_info w;
     sepgsql_permissive := sepgsql_permissive w;
     sepgsql_debug_audit := sepgsql_debug_audit w;
     host := host w |}.

Definition with_context_info (c : sepgsql_context_info_t) (w : world) : world :=
  {| client_label := client_label w;
     sepgsql_mode := sepgsql_mode w;
     sepgsql_context_info := c;
     sepgsql_permissive := sepgsql_permissive w;
     sepgsql_debug_audit := sepgsql_debug_audit w;
     host := host w |}.

(** Computations of the backend, and computations that also hold the
    caller's slot [*private] of an [fmgr_hook] call. *)
Definition M := Comp world.
Definition F (slot : Type) := Comp (slot * world).

(** Run a backend computation next to a slot it cannot reach. *)
Definition lift {slot A} (m : M A) : F slot A :=
  fun s =>
    let r := m (snd s) in
    Result (out r) (fst s, final r) (calls r).

(** The hooks found installed when the module was loaded
    ([next_*_hook]); [None] is a NULL function pointer. *)
Record HookChain := {
  next_object_access_hook :
    option (ObjectAccessType -> Oid -> Oid -> Z -> M unit);
  next_client_auth_hook :
    option (Port -> Z -> M unit);
  next_exec_check_perms_hook :
    option (list RangeTblEntry -> bool -> M bool);
  next_needs_fmgr_hook :
    option (Oid -> M bool);
  next_fmgr_hook :
    option (FmgrHookEventType -> FmgrInfo -> F Datum unit);
  next_ProcessUtility_hook :
    option (Node -> string -> ParamListInfo -> bool -> DestReceiver -> Z -> M unit);
  next_ExecutorStart_hook :
    option (QueryDesc -> Z -> M unit)
}.

(** Host functions and the other files of the module that [hooks.c]
    hands control to.  Nothing is assumed about what they do. *)
Record Callees := {
  standard_ProcessUtility :
    Node -> string -> ParamListInfo -> bool -> DestReceiver -> Z -> M unit;
  standard_ExecutorStart : QueryDesc -> Z -> M unit;
  database_post_create : Oid -> option string -> M unit;
  schema_post_create : Oid -> M unit;
  relation_post_create : Oid -> M unit;
  attribute_post_create : Oid -> Z -> M unit;
  proc_post_create : Oid -> M unit;
  dml_privileges : list RangeTblEntry -> bool -> M bool
}.

(** The Decision Oracle: libselinux and the userspace access vector
    cache.  Its answers depend on the state of the backend (the
    client label is the subject) and are otherwise unconstrained. *)
Record Oracle := {
  (* getpeercon_raw: [Some context] on success, [None] for a result < 0 *)
  peercon : world -> Z -> option label;
  (* label to switch to when the function is a trusted procedure *)
  trusted_proc : world -> Oid -> option label;
  (* is the client allowed the permission on the object / on the label *)
  allowed : world -> ObjectAddress -> sepg_class -> sepg_perm -> bool;
  allowed_label : world -> label -> sepg_class -> sepg_perm -> bool
}.

Variable chain : HookChain.
Variable callee : Callees.
Variable oracle : Oracle.

(** *** Callees, each call recorded *)

Definition getpeercon_raw (fd : Z) : M (option label) :=
  emit (call_getpeercon_raw fd) ;;
  do w <- get ;
  ret (peercon oracle w fd).

Definition sepgsql_avc_trusted_proc (functionId : Oid) : M (option label) :=
  emit (call_avc_trusted_proc functionId) ;;
  do w <- get ;
  ret (trusted_proc oracle w functionId).

(** Modelled from the spec: [sepgsql_avc_check_perms] (uavc.c) is
    [checkPermission(subjectLabel, classTag, permissionBits, auditMode,
    fatalOnDeny) -> bool]: it answers whether the permission is
    allowed, and raises an access-control error instead of answering
    "no" when asked to abort on denial. *)
Definition sepgsql_avc_check_perms (tobject : ObjectAddress)
    (tclass : sepg_class) (required : sepg_perm)
    (audit_name : audit_name_t) (abort : bool) : M bool :=
  emit (call_avc_check_perms tobject tclass required audit_name abort) ;;
  do w <- get ;
  if allowed oracle w tobject tclass required then ret true
  else if abort then
    ereport ERROR ERRCODE_INSUFFICIENT_PRIVILEGE
            "SELinux: security policy violation"
  else ret false.

(** Modelled from the spec: the same check against a target label
    ([sepgsql_avc_check_perms_label], uavc.c). *)
Definition sepgsql_avc_check_perms_label (tcontext : label)
    (tclass : sepg_class) (required : sepg_perm)
    (audit_name : audit_name_t) (abort : bool) : M bool :=
  emit (call_avc_check_perms_label tcontext tclass required audit_name abort) ;;
  do w <- get ;
  if allowed_label oracle w tcontext tclass required then ret true
  else if abort then
    ereport ERROR ERRCODE_INSUFFICIENT_PRIVILEGE
            "SELinux: security policy violation"
  else ret false.

(** Modelled from the spec: [sepgsql_set_client_label] (label.c) is
    [setLabel(new) -> old], a swap: the new label is installed and
    the one it replaces is handed back to the caller. *)
Definition sepgsql_set_client_label (new_label : option label) : M (option label) :=
  do w <- get ;
  modify (with_client_label new_label) ;;
  ret (client_label w).

(** Modelled from the spec: [sepgsql_set_mode] (selinux.c) is
    [setMode(m)]; it stores the new performing mode and returns the
    previous one.  That the mode only moves forward is a property of
    its callers: after load time the authentication hook is the only
    one. *)
Definition sepgsql_set_mode (new_mode : sepgsql_mode_t) : M sepgsql_mode_t :=
  do w <- get ;
  modify (with_mode new_mode) ;;
  ret (sepgsql_mode w).

(** Modelled from the spec: [sepgsql_getenforce] (selinux.c) answers
    whether the session runs in Enforcing mode, which is the mode the
    code calls [SEPGSQL_MODE_DEFAULT]. *)
Definition sepgsql_getenforce : M bool :=
  do w <- get ;
  ret (match sepgsql_mode w with
       | SEPGSQL_MODE_DEFAULT => true
       | _ => false
       end).

Definition sepgsql_database_post_create (databaseId : Oid)
    (dtemplate : option string) : M unit :=
  emit (call_database_post_create databaseId dtemplate) ;;
  database_post_create callee databaseId dtemplate.

Definition sepgsql_schema_post_create (namespaceId : Oid) : M unit :=
  emit (call_schema_post_create namespaceId) ;;
  schema_post_create callee namespaceId.

Definition sepgsql_relation_post_create (relOid : Oid) : M unit :=
  emit (call_relation_post_create relOid) ;;
  relation_post_create callee relOid.

Definition sepgsql_attribute_post_create (relOid : Oid) (attnum : Z) : M unit :=
  emit (call_attribute_post_create relOid attnum) ;;
  attribute_post_create callee relOid attnum.

Definition sepgsql_proc_post_create (functionId : Oid) : M unit :=
  emit (call_proc_post_create functionId) ;;
  proc_post_create callee functionId.

Definition sepgsql_dml_privileges (rangeTabls : list RangeTblEntry)
    (abort : bool) : M bool :=
  emit (call_dml_privileges rangeTabls abort) ;;
  dml_privileges callee rangeTabls abort.

(** [if (next_hook) ( *next_hook) (...)] *)
Definition call_if_set {S H} (p : extension_point) (next : option H)
    (invoke : H -> Comp S unit) : Comp S unit :=
  match next with
  | Some h => emit (call_next p) ;; invoke h
  | None => ret tt
  end.

(** *** The hook entry points *)

(** [sepgsql_client_auth]: switches the client label according to
    [getpeercon], and the performing mode according to the GUC. *)
Definition sepgsql_client_auth (port : Port) (status : Z) : M unit :=
  call_if_set client_auth (next_client_auth_hook chain)
    (fun h => h port status) ;;
  (* authentication failed: the socket is closed soon, nothing to do *)
  if negb (status =? STATUS_OK) then ret tt
  else
    do context <- getpeercon_raw (sock port) ;
    match context with
    | None =>
        ereport FATAL ERRCODE_INTERNAL_ERROR
                "SELinux: unable to get peer label: %m"
    | Some context =>
        sepgsql_set_client_label (Some context) ;;
        do permissive <- gets sepgsql_permissive ;
        if permissive then sepgsql_set_mode SEPGSQL_MODE_PERMISSIVE ;; ret tt
        else sepgsql_set_mode SEPGSQL_MODE_DEFAULT ;; ret tt
    end.

(** The statement kinds under which the creation of a relation is
    checked ([switch (sepgsql_context_info.cmdtype)]). *)
Definition creates_relation (t : NodeTag) : bool :=
  match t with
  | T_CreateStmt
  | T_ViewStmt
  | T_CreateSeqStmt
  | T_CompositeTypeStmt
  | T_CreateForeignTableStmt
  | T_SelectStmt => true
  | _ => false                         (* via make_new_heap() *)
  end.

(** [sepgsql_object_access]: dispatcher on access type and object
    class. *)
Definition sepgsql_object_access (access : ObjectAccessType)
    (classId objectId : Oid) (subId : Z) : M unit :=
  call_if_set object_access (next_object_access_hook chain)
    (fun h => h access classId objectId subId) ;;
  match access with
  | OAT_POST_CREATE =>
      if classId =? DatabaseRelationId then
        do info <- gets sepgsql_context_info ;
        sepgsql_database_post_create objectId (createdb_dtemplate info)
      else if classId =? NamespaceRelationId then
        sepgsql_schema_post_create objectId
      else if classId =? RelationRelationId then
        if subId =? 0 then
          do info <- gets sepgsql_context_info ;
          if creates_relation (cmdtype info)
          then sepgsql_relation_post_create objectId
          else ret tt
        else sepgsql_attribute_post_create objectId subId
      else if classId =? ProcedureRelationId then
        sepgsql_proc_post_create objectId
      else
        ret tt                         (* unsupported object classes *)
  | OAT_unknown code =>
      elog ERROR "unexpected object access type: %d"
  end.

(** [sepgsql_exec_check_perms]: entry point of DML permissions. *)
Definition sepgsql_exec_check_perms (rangeTabls : list RangeTblEntry)
    (abort : bool) : M bool :=
  do stacked <-
    match next_exec_check_perms_hook chain with
    | Some h => emit (call_next exec_check_perms) ;; h rangeTabls abort
    | None => ret true
    end ;
  if negb stacked then ret false
  else
    do ok <- sepgsql_dml_privileges rangeTabls abort ;
    if negb ok then ret false
    else ret true.

(** [sepgsql_needs_fmgr_hook]: tells the core whether the function
    must be called through the hook. *)
Definition sepgsql_needs_fmgr_hook (functionId : Oid) : M bool :=
  do stacked <-
    match next_needs_fmgr_hook chain with
    | Some h => emit (call_next needs_fmgr) ;; h functionId
    | None => ret false
    end ;
  if stacked then ret true
  else
    do trusted <- sepgsql_avc_trusted_proc functionId ;
    match trusted with
    | Some _ => ret true
    | None =>
        let object := {| classId := ProcedureRelationId;
                         objectId := functionId;
                         objectSubId := 0 |} in
        do ok <- sepgsql_avc_check_perms object SEPG_CLASS_DB_PROCEDURE
                   SEPG_DB_PROCEDURE__EXECUTE SEPGSQL_AVC_NOAUDIT false ;
        if negb ok then ret true
        else ret false
    end.

(** Access to [*private] and to the area it points to. *)
Definition slot := option fmgr_stack.     (* NULL, or the area *)

Definition get_private : F slot slot := gets fst.

Definition set_private (p : slot) : F slot unit :=
  modify (fun s => (p, snd s)).

(** [stack->field]: a NULL [stack] is a crash. *)
Definition deref : F slot fmgr_stack :=
  do p <- get_private ;
  match p with
  | Some stack => ret stack
  | None => raise Segfault
  end.

Definition set_old_label (l : option label) : F slot unit :=
  do stack <- deref ;
  set_private (Some {| old_label := l;
                       new_label := new_label stack;
                       next_private := next_private stack |}).

(** [( *next_fmgr_hook) (event, flinfo, &stack->next_private)]: the
    stacked hook works on the word [next_private] of the area and on
    nothing else of it. *)
Definition with_next_private (m : F Datum unit) : F slot unit :=
  fun s =>
    match fst s with
    | None => Result (Err Segfault) s []
    | Some stack =>
        let r := m (next_private stack, snd s) in
        Result (out r)
               (Some {| old_label := old_label stack;
                        new_label := new_label stack;
                        next_private := fst (final r) |},
                snd (final r))
               (calls r)
    end.

Definition is_null {A} (p : option A) : bool :=
  match p with
  | Some _ => false
  | None => true
  end.

(** [sepgsql_fmgr_hook]: switches the security label of the client on
    execution of trusted procedures. *)
Definition sepgsql_fmgr_hook (event : FmgrHookEventType)
    (flinfo : FmgrInfo) : F slot unit :=
  match event with
  | FHET_START =>
      do stack <- get_private ;
      do stack <-
        match stack with
        | Some stack => ret stack
        | None =>
            do trusted <- lift (sepgsql_avc_trusted_proc (fn_oid flinfo)) ;
            let stack := {| old_label := None;
                            new_label := trusted;
                            next_private := 0 |} in
            (* process:transition between the old and the new label *)
            match new_label stack with
            | Some nl =>
                lift (sepgsql_avc_check_perms_label nl SEPG_CLASS_PROCESS
                        SEPG_PROCESS__TRANSITION AUDIT_NULL true) ;; ret tt
            | None => ret tt
            end ;;
            set_private (Some stack) ;;
            ret stack
        end ;
      Assert (is_null (old_label stack)) "!(stack->old_label)" ;;
      match new_label stack with
      | Some nl =>
          do old <- lift (sepgsql_set_client_label (Some nl)) ;
          set_old_label old
      | None => ret tt
      end ;;
      call_if_set fmgr (next_fmgr_hook chain)
        (fun h => with_next_private (h event flinfo))
  | FHET_END
  | FHET_ABORT =>
      call_if_set fmgr (next_fmgr_hook chain)
        (fun h => with_next_private (h event flinfo)) ;;
      do stack <- deref ;
      match old_label stack with
      | Some ol => lift (sepgsql_set_client_label (Some ol)) ;; ret tt
      | None => ret tt
      end ;;
      set_old_label None
  | FHET_unknown code =>
      elog ERROR "unexpected event type: %d"
  end.

(** [sepgsql_executor_start]: saves contextual information during
    ExecutorStart. *)
Definition set_cmdtype (t : NodeTag) : M unit :=
  modify (fun w =>
    with_context_info
      {| cmdtype := t;
         createdb_dtemplate := createdb_dtemplate (sepgsql_context_info w) |} w).

Definition set_createdb_dtemplate (name : option string) : M unit :=
  modify (fun w =>
    with_context_info
      {| cmdtype := cmdtype (sepgsql_context_info w);
         createdb_dtemplate := name |} w).

Definition sepgsql_executor_start (queryDesc : QueryDesc) (eflags : Z) : M unit :=
  do saved_context_info <- gets sepgsql_context_info ;
  PG_TRY
    (match operation queryDesc with
     | CMD_SELECT => set_cmdtype T_SelectStmt
     | CMD_INSERT => set_cmdtype T_InsertStmt
     | CMD_DELETE => set_cmdtype T_DeleteStmt
     | CMD_UPDATE => set_cmdtype T_UpdateStmt
     | _ => ret tt
     end ;;
     match next_ExecutorStart_hook chain with
     | Some h => emit (call_next ExecutorStart) ;; h queryDesc eflags
     | None =>
         emit (call_standard ExecutorStart) ;;
         standard_ExecutorStart callee queryDesc eflags
     end)
    (fun failure =>
       modify (with_context_info saved_context_info) ;;
       PG_RE_THROW failure) ;;
  modify (with_context_info saved_context_info).

(** [foreach (cell, options)] up to the first element named
    "template". *)
Fixpoint scan_template (options : list DefElem) : M unit :=
  match options with
  | [] => ret tt
  | defel :: rest =>
      if String.eqb (defname defel) "template"
      then set_createdb_dtemplate (Some (arg defel))
      else scan_template rest
  end.

(** [sepgsql_utility_command]: rough-grained control on utility
    commands. *)
Definition sepgsql_utility_command (parsetree : Node) (queryString : string)
    (params : ParamListInfo) (isTopLevel : bool) (dest : DestReceiver)
    (completionTag : Z) : M unit :=
  do saved_context_info <- gets sepgsql_context_info ;
  PG_TRY
    (set_cmdtype (nodeTag parsetree) ;;
     match nodeTag parsetree with
     | T_CreatedbStmt =>
         scan_template (CreatedbStmt_options parsetree)
     | T_LoadStmt =>
         (* LOAD is rejected across the board on enforcing mode *)
         do enforce <- sepgsql_getenforce ;
         if enforce then
           ereport ERROR ERRCODE_INSUFFICIENT_PRIVILEGE
                   "SELinux: LOAD is not permitted"
         else ret tt
     | _ => ret tt
     end ;;
     match next_ProcessUtility_hook chain with
     | Some h =>
         emit (call_next ProcessUtility) ;;
         h parsetree queryString params isTopLevel dest completionTag
     | None =>
         emit (call_standard ProcessUtility) ;;
         standard_ProcessUtility callee parsetree queryString params
           isTopLevel dest completionTag
     end)
    (fun failure =>
       modify (with_context_info saved_context_info) ;;
       PG_RE_THROW failure) ;;
  modify (with_context_info saved_context_info).

End World.

Arguments with_client_label {Host} l w.
Arguments with_mode {Host} m w.
Arguments with_context_info {Host} c w.
Arguments lift {Host slot A} m.
Arguments getpeercon_raw {Host} oracle fd.
Arguments sepgsql_avc_trusted_proc {Host} oracle functionId.
Arguments sepgsql_avc_check_perms {Host} oracle tobject tclass required audit_name abort.
Arguments sepgsql_avc_check_perms_label {Host} oracle tcontext tclass required audit_name abort.
Arguments sepgsql_set_client_label {Host} new_label.
Arguments sepgsql_set_mode {Host} new_mode.
Arguments sepgsql_getenforce {Host}.
Arguments sepgsql_database_post_create {Host} callee databaseId dtemplate.
Arguments sepgsql_schema_post_create {Host} callee namespaceId.
Arguments sepgsql_relation_post_create {Host} callee relOid.
Arguments sepgsql_attribute_post_create {Host} callee relOid attnum.
Arguments sepgsql_proc_post_create {Host} callee functionId.
Arguments sepgsql_dml_privileges {Host} callee rangeTabls abort.
Arguments get_private {Host}.
Arguments set_private {Host} p.
Arguments deref {Host}.
Arguments set_old_label {Host} l.
Arguments with_next_private {Host} m.
Arguments set_cmdtype {Host} t.
Arguments set_createdb_dtemplate {Host} name.
Arguments scan_template {Host} options.
Arguments sepgsql_client_auth {Host} chain oracle port status.
Arguments sepgsql_object_access {Host} chain callee access classId objectId subId.
Arguments sepgsql_exec_check_perms {Host} chain callee rangeTabls abort.
Arguments sepgsql_needs_fmgr_hook {Host} chain oracle functionId.
Arguments sepgsql_fmgr_hook {Host} chain oracle event flinfo.
Arguments sepgsql_executor_start {Host} chain callee queryDesc eflags.
Arguments sepgsql_utility_command {Host} chain callee parsetree queryString params isTopLevel dest completionTag.

(** ** Vocabulary of the properties *)

Section Vocabulary.
Variable Host : Type.
Variable chain : HookChain Host.
Variable callee : Callees Host.

(** The delegation step of each extension point, on its own: what the
    previously installed hook (or, where the code falls back on it, the
    host's own implementation) does when this module hands over. *)
Definition delegate_client_auth (port : Port) (status : Z) : M Host unit :=
  call_if_set client_auth (next_client_auth_hook chain)
    (fun h => h port status).

Definition delegate_object_access (access : ObjectAccessType)
    (classId objectId : Oid) (subId : Z) : M Host unit :=
  call_if_set object_access (next_object_access_hook chain)
    (fun h => h access classId objectId subId).

(** The answer of the stacked DML check; with none stacked, nothing
    objects. *)
Definition delegate_exec_check_perms (rangeTabls : list RangeTblEntry)
    (abort : bool) : M Host bool :=
  match next_exec_check_perms_hook chain with
  | Some h => emit (call_next exec_check_perms) ;; h rangeTabls abort
  | None => ret true
  end.

(** The answer of the stacked needs-hook query; with none stacked,
    nothing asks for the hook. *)
Definition delegate_needs_fmgr (functionId : Oid) : M Host bool :=
  match next_needs_fmgr_hook chain with
  | Some h => emit (call_next needs_fmgr) ;; h functionId
  | None => ret false
  end.

Definition delegate_fmgr (event : FmgrHookEventType) (flinfo : FmgrInfo)
    : F Host slot unit :=
  call_if_set fmgr (next_fmgr_hook chain)
    (fun h => with_next_private (h event flinfo)).

Definition delegate_ProcessUtility (parsetree : Node) (queryString : string)
    (params : ParamListInfo) (isTopLevel : bool) (dest : DestReceiver)
    (completionTag : Z) : M Host unit :=
  match next_ProcessUtility_hook chain with
  | Some h =>
      emit (call_next ProcessUtility) ;;
      h parsetree queryString params isTopLevel dest completionTag
  | None =>
      emit (call_standard ProcessUtility) ;;
      standard_ProcessUtility callee parsetree queryString params
        isTopLevel dest completionTag
  end.

Definition delegate_ExecutorStart (queryDesc : QueryDesc) (eflags : Z)
    : M Host unit :=
  match next_ExecutorStart_hook chain with
  | Some h => emit (call_next ExecutorStart) ;; h queryDesc eflags
  | None =>
      emit (call_standard ExecutorStart) ;;
      standard_ExecutorStart callee queryDesc eflags
  end.

(** Save and restore around a nested dispatch: the shape shared by
    [sepgsql_executor_start] and [sepgsql_utility_command]. *)
Definition guarded (saved : sepgsql_context_info_t) (body : M Host unit)
    : M Host unit :=
  PG_TRY body
    (fun failure =>
       modify (with_context_info saved) ;;
       PG_RE_THROW failure) ;;
  modify (with_context_info saved).

(** The context as [sepgsql_utility_command] and
    [sepgsql_executor_start] set it on entry. *)
Definition entered (t : NodeTag) (w : world Host) : world Host :=
  with_context_info
    {| cmdtype := t;
       createdb_dtemplate := createdb_dtemplate (sepgsql_context_info w) |} w.

(** Nested dispatch.  One level is entered through one of the two
    hooks; what the host then runs inside it, whether through a stacked
    hook or through its own implementation, is some work [before], the
    next level, and some work [after]. *)
Inductive entry :=
| via_ProcessUtility (parsetree : Node) (queryString : string)
    (params : ParamListInfo) (isTopLevel : bool) (dest : DestReceiver)
    (completionTag : Z)
| via_ExecutorStart (queryDesc : QueryDesc) (eflags : Z).

Record level := {
  how : entry;
  before : M Host unit;
  after : M Host unit
}.

Definition chain_running (m : M Host unit) : HookChain Host :=
  {| next_object_access_hook := next_object_access_hook chain;
     next_client_auth_hook := next_client_auth_hook chain;
     next_exec_check_perms_hook := next_exec_check_perms_hook chain;
     next_needs_fmgr_hook := next_needs_fmgr_hook chain;
     next_fmgr_hook := next_fmgr_hook chain;
     next_ProcessUtility_hook :=
       match next_ProcessUtility_hook chain with
       | Some _ => Some (fun _ _ _ _ _ _ => m)
       | None => None
       end;
     next_ExecutorStart_hook :=
       match next_ExecutorStart_hook chain with
       | Some _ => Some (fun _ _ => m)
       | None => None
       end |}.

Definition callee_running (m : M Host unit) : Callees Host :=
  {| standard_ProcessUtility := fun _ _ _ _ _ _ => m;
     standard_ExecutorStart := fun _ _ => m;
     database_post_create := database_post_create callee;
     schema_post_create := schema_post_create callee;
     relation_post_create := relation_post_create callee;
     attribute_post_create := attribute_post_create callee;
     proc_post_create := proc_post_create callee;
     dml_privileges := dml_privileges callee |}.

Definition enter (e : entry) (inside : M Host unit) : M Host unit :=
  match e with
  | via_ProcessUtility parsetree queryString params isTopLevel dest tag =>
      sepgsql_utility_command (chain_running inside) (callee_running inside)
        parsetree queryString params isTopLevel dest tag
  | via_ExecutorStart queryDesc eflags =>
      sepgsql_executor_start (chain_running inside) (callee_running inside)
        queryDesc eflags
  end.

Fixpoint nested (levels : list level) (innermost : M Host unit) : M Host unit :=
  match levels with
  | [] => innermost
  | l :: inner =>
      enter (how l) (before l ;; nested inner innermost ;; after l)
  end.

(** The statement kinds that stand for the creation of a relation by
    the user, as the specification lists them: plain table, view,
    sequence, composite type, foreign table, select-into. *)
Definition allow_list : list NodeTag :=
  [ T_CreateStmt; T_ViewStmt; T_CreateSeqStmt; T_CompositeTypeStmt;
    T_CreateForeignTableStmt; T_SelectStmt ].

(** The object classes [sepgsql_object_access] has a case for. *)
Definition supported_class (classId : Oid) : bool :=
  (classId =? DatabaseRelationId) || (classId =? NamespaceRelationId)
  || (classId =? RelationRelationId) || (classId =? ProcedureRelationId).

End Vocabulary.

Arguments delegate_client_auth {Host} chain port status.
Arguments delegate_object_access {Host} chain access classId objectId subId.
Arguments delegate_exec_check_perms {Host} chain rangeTabls abort.
Arguments delegate_needs_fmgr {Host} chain functionId.
Arguments delegate_fmgr {Host} chain event flinfo.
Arguments delegate_ProcessUtility {Host} chain callee parsetree queryString params isTopLevel dest completionTag.
Arguments delegate_ExecutorStart {Host} chain callee queryDesc eflags.
Arguments guarded {Host} saved body.
Arguments entered {Host} t w.
Arguments chain_running {Host} chain m.
Arguments callee_running {Host} callee m.
Arguments enter {Host} chain callee e inside.
Arguments nested {Host} chain callee levels innermost.

(** ** A small session, for running the hooks *)

Module Scenario.

Definition client_t : label := "u:r:client_t:s0".
Definition trusted_t : label := "u:r:trusted_t:s0".
Definition peer_t : label := "u:r:t:s0".

(** Nothing was installed before this module. *)
Definition no_chain : HookChain unit :=
  {| next_object_access_hook := None;
     next_client_auth_hook := None;
     next_exec_check_perms_hook := None;
     next_needs_fmgr_hook := None;
     next_fmgr_hook := None;
     next_ProcessUtility_hook := None;
     next_ExecutorStart_hook := None |}.

(** Another provider is stacked below: it denies every DML check,
    asks for no function to be wrapped, and does nothing elsewhere. *)
Definition stacked_chain : HookChain unit :=
  {| next_object_access_hook := Some (fun _ _ _ _ => ret tt);
     next_client_auth_hook := Some (fun _ _ => ret tt);
     next_exec_check_perms_hook := Some (fun _ _ => ret false);
     next_needs_fmgr_hook := Some (fun _ => ret false);
     next_fmgr_hook := Some (fun _ _ => ret tt);
     next_ProcessUtility_hook := Some (fun _ _ _ _ _ _ => ret tt);
     next_ExecutorStart_hook := Some (fun _ _ => ret tt) |}.

(** A host whose own processing just returns. *)
Definition quiet : Callees unit :=
  {| standard_ProcessUtility := fun _ _ _ _ _ _ => ret tt;
     standard_ExecutorStart := fun _ _ => ret tt;
     database_post_create := fun _ _ => ret tt;
     schema_post_create := fun _ => ret tt;
     relation_post_create := fun _ => ret tt;
     attribute_post_create := fun _ _ => ret tt;
     proc_post_create := fun _ => ret tt;
     dml_privileges := fun _ _ => ret true |}.

(** A host whose utility processing fails with an error. *)
Definition failing : Callees unit :=
  {| standard_ProcessUtility := fun _ _ _ _ _ _ =>
       modify (with_context_info {| cmdtype := T_VacuumStmt;
                                    createdb_dtemplate := Some "elsewhere" |}) ;;
       elog ERROR "out of memory";
     standard_ExecutorStart := fun _ _ => elog ERROR "out of memory";
     database_post_create := fun _ _ => ret tt;
     schema_post_create := fun _ => ret tt;
     relation_post_create := fun _ => ret tt;
     attribute_post_create := fun _ _ => ret tt;
     proc_post_create := fun _ => ret tt;
     dml_privileges := fun _ _ => ret true |}.

(** A policy in which function 42 is a trusted procedure, function 7
    may not be executed, and everything else is allowed. *)
Definition policy : Oracle unit :=
  {| peercon := fun _ _ => Some peer_t;
     trusted_proc := fun _ f => if f =? 42 then Some trusted_t else None;
     allowed := fun _ o _ _ => negb (objectId o =? 7);
     allowed_label := fun _ _ _ _ => true |}.

(** The same policy on a transport that yields no peer label. *)
Definition policy_no_peer : Oracle unit :=
  {| peercon := fun _ _ => None;
     trusted_proc := trusted_proc policy;
     allowed := allowed policy;
     allowed_label := allowed_label policy |}.

(** The backend right after the module was loaded. *)
Definition loaded : world unit :=
  {| client_label := Some client_t;
     sepgsql_mode := SEPGSQL_MODE_INTERNAL;
     sepgsql_context_info := {| cmdtype := T_Invalid; createdb_dtemplate := None |};
     sepgsql_permissive := false;
     sepgsql_debug_audit := false;
     host := tt |}.

Definition enforcing : world unit := with_mode SEPGSQL_MODE_DEFAULT loaded.
Definition permissive : world unit := with_mode SEPGSQL_MODE_PERMISSIVE loaded.

Definition in_create_table : world unit := entered T_CreateStmt enforcing.
Definition in_cluster : world unit := entered T_ClusterStmt enforcing.

Definition func42 : FmgrInfo := {| fn_oid := 42; fn_mcxt := 0 |}.
Definition port5 : Port := {| sock := 5 |}.

End Scenario.

(** ** The rest of [hooks.c]: module load *)

Definition with_permissive {Host} (b : bool) (w : world Host) : world Host :=
  {| client_label := client_label w;
     sepgsql_mode := sepgsql_mode w;
     sepgsql_context_info := sepgsql_context_info w;
     sepgsql_permissive := b;
     sepgsql_debug_audit := sepgsql_debug_audit w;
     host := host w |}.

Definition with_debug_audit {Host} (b : bool) (w : world Host) : world Host :=
  {| client_label := client_label w;
     sepgsql_mode := sepgsql_mode w;
     sepgsql_context_info := sepgsql_context_info w;
     sepgsql_permissive := sepgsql_permissive w;
     sepgsql_debug_audit := b;
     host := host w |}.

(** What a hook variable holds: the address of one of the entry points
    of this file, or of a function of some other module. *)
Inductive address :=
| entry_point (p : extension_point)   (* sepgsql_client_auth, ... *)
| elsewhere (a : Z).

(** One variable per extension point.  The host has one such set (the
    hooks it calls); [hooks.c] has another (its static [next_*_hook]),
    field for field. *)
Record hook_variables := {
  object_access_hook : option address;
  ClientAuthentication_hook : option address;
  ExecutorCheckPerms_hook : option address;
  needs_fmgr_hook : option address;
  fmgr_hook : option address;
  ProcessUtility_hook : option address;
  ExecutorStart_hook : option address
}.

Definition get_hook (p : extension_point) (v : hook_variables) : option address :=
  match p with
  | object_access => object_access_hook v
  | client_auth => ClientAuthentication_hook v
  | exec_check_perms => ExecutorCheckPerms_hook v
  | needs_fmgr => needs_fmgr_hook v
  | fmgr => fmgr_hook v
  | ProcessUtility => ProcessUtility_hook v
  | ExecutorStart => ExecutorStart_hook v
  end.

Definition set_hook (p : extension_point) (a : option address)
    (v : hook_variables) : hook_variables :=
  {| object_access_hook :=
       match p with object_access => a | _ => object_access_hook v end;
     ClientAuthentication_hook :=
       match p with client_auth => a | _ => ClientAuthentication_hook v end;
     ExecutorCheckPerms_hook :=
       match p with exec_check_perms => a | _ => ExecutorCheckPerms_hook v end;
     needs_fmgr_hook :=
       match p with needs_fmgr => a | _ => needs_fmgr_hook v end;
     fmgr_hook :=
       match p with fmgr => a | _ => fmgr_hook v end;
     ProcessUtility_hook :=
       match p with ProcessUtility => a | _ => ProcessUtility_hook v end;
     ExecutorStart_hook :=
       match p with ExecutorStart => a | _ => ExecutorStart_hook v end |}.

(** The process while the module is loaded: the backend state, the
    host's hook variables, and the [next_*_hook] variables. *)
Record process (Host : Type) := {
  backend : world Host;
  installed : hook_variables;
  saved : hook_variables
}.

(** What [_PG_init] calls and reads outside this file.  Nothing is
    assumed about it. *)
Record Loader (Host : Type) := {
  IsUnderPostmaster : bool;
  (* is_selinux_enabled() *)
  selinux_enabled : world Host -> Z;
  (* getcon_raw: [Some context] on success, [None] for a result < 0 *)
  owncon : world Host -> option label;
  (* DefineCustomBoolVariable(name, ..., boot value, ...): the value
     the variable is given *)
  DefineCustomBoolVariable : string -> bool -> M Host bool;
  avc_init : M Host unit;
  (* register_label_provider(tag, sepgsql_object_relabel) *)
  register_label_provider : string -> M Host unit
}.

Definition SEPGSQL_LABEL_TAG : string := "selinux".

(** A backend computation, run by the loading process. *)
Definition on_backend {Host A} (m : M Host A) : Comp (process Host) A :=
  fun p =>
    let r := m (backend p) in
    Result (out r)
           {| backend := final r; installed := installed p; saved := saved p |}
           (calls r).

(** [next_x_hook = x_hook; x_hook = sepgsql_x;] *)
Definition chain_hook {Host} (p : extension_point) : Comp (process Host) unit :=
  modify (fun s =>
    {| backend := backend s;
       installed := set_hook p (Some (entry_point p)) (installed s);
       saved := set_hook p (get_hook p (installed s)) (saved s) |}).

(** [memset(&sepgsql_context_info, 0, sizeof(sepgsql_context_info))] *)
Definition zeroed_context_info : sepgsql_context_info_t :=
  {| cmdtype := T_Invalid; createdb_dtemplate := None |}.

(** [_PG_init]: module load callback. *)
Definition _PG_init {Host} (env : Loader Host) : Comp (process Host) unit :=
  (* the module may be loaded on single-user mode or by
     shared_preload_libraries only *)
  if IsUnderPostmaster env then
    ereport ERROR ERRCODE_OBJECT_NOT_IN_PREREQUISITE_STATE
            "sepgsql must be loaded via shared_preload_libraries"
  else
    do enabled <- on_backend (gets (selinux_enabled env)) ;
    if enabled <? 1 then
      (* SELinux disabled: the rest of the initialization is skipped *)
      on_backend (sepgsql_set_mode SEPGSQL_MODE_DISABLED) ;; ret tt
    else
      do permissive <-
        on_backend (DefineCustomBoolVariable env "sepgsql.permissive" false) ;
      on_backend (modify (with_permissive permissive)) ;;
      do debug_audit <-
        on_backend (DefineCustomBoolVariable env "sepgsql.debug_audit" false) ;
      on_backend (modify (with_debug_audit debug_audit)) ;;
      (* set up dummy client label *)
      do context <- on_backend (gets (owncon env)) ;
      match context with
      | None =>
          ereport ERROR ERRCODE_INTERNAL_ERROR
                  "SELinux: failed to get server security label: %m"
      | Some context =>
          on_backend (sepgsql_set_client_label (Some context)) ;;
          on_backend (avc_init env) ;;
          on_backend (register_label_provider env SEPGSQL_LABEL_TAG) ;;
          chain_hook client_auth ;;
          chain_hook object_access ;;
          chain_hook exec_check_perms ;;
          chain_hook needs_fmgr ;;
          chain_hook fmgr ;;
          chain_hook ProcessUtility ;;
          chain_hook ExecutorStart ;;
          (* init contextual info *)
          on_backend (modify (with_context_info zeroed_context_info))
      end.

(** Every hook variable pointing to this module. *)
Definition sepgsql_hooks : hook_variables :=
  {| object_access_hook := Some (entry_point object_access);
     ClientAuthentication_hook := Some (entry_point client_auth);
     ExecutorCheckPerms_hook := Some (entry_point exec_check_perms);
     needs_fmgr_hook := Some (entry_point needs_fmgr);
     fmgr_hook := Some (entry_point fmgr);
     ProcessUtility_hook := Some (entry_point ProcessUtility);
     ExecutorStart_hook := Some (entry_point ExecutorStart) |}.

(** ** Further vocabulary *)




(** The statement kind [sepgsql_executor_start] records for a query. *)
Definition tag_of_operation (op : CmdType) : option NodeTag :=
  match op with
  | CMD_SELECT => Some T_SelectStmt
  | CMD_INSERT => Some T_InsertStmt
  | CMD_DELETE => Some T_DeleteStmt
  | CMD_UPDATE => Some T_UpdateStmt
  | _ => None
  end.

Definition executor_entry_state {Host} (queryDesc : QueryDesc)
    (w : world Host) : world Host :=
  match tag_of_operation (operation queryDesc) with
  | Some t => entered t w
  | None => w
  end.

(** The slot and backend state START hands to the stacked hook, from
    an area that remembers no label. *)
Definition started_state {Host} (stack : fmgr_stack) (w : world Host)
    : slot * world Host :=
  match new_label stack with
  | Some nl =>
      (Some {| old_label := client_label w;
               new_label := Some nl;
               next_private := next_private stack |},
       with_client_label (Some nl) w)
  | None => (Some stack, w)
  end.

(** Activations of one function through one [FmgrInfo], one after the
    other: START, the wrapped call (whatever it does to the backend),
    then END or ABORT. *)
Record activation (Host : Type) := {
  wrapped_call : world Host -> world Host;
  ending : FmgrHookEventType
}.

Fixpoint activations {Host} (chain : HookChain Host) (oracle : Oracle Host)
    (flinfo : FmgrInfo) (l : list (activation Host)) : F Host slot unit :=
  match l with
  | [] => ret tt
  | a :: rest =>
      sepgsql_fmgr_hook chain oracle FHET_START flinfo ;;
      modify (fun s => (fst s, wrapped_call a (snd s))) ;;
      sepgsql_fmgr_hook chain oracle (ending a) flinfo ;;
      activations chain oracle flinfo rest
  end.

(** [r] is what results from [d], which returned, followed by the
    recorded call [c] whose run is [h]. *)
Definition then_runs {S A} (d : result S unit) (c : call) (h r : result S A)
    : Prop :=
  out r = out h /\ final r = final h /\ calls r = calls d ++ c :: calls h.

(** ** A small process, for running the module load *)

Module Startup.

Definition server_t : label := "system_u:system_r:postgresql_t:s0".

Definition postmaster_start : Loader unit :=
  {| IsUnderPostmaster := false;
     selinux_enabled := fun _ => 1;
     owncon := fun _ => Some server_t;
     DefineCustomBoolVariable := fun _ boot => ret boot;
     avc_init := ret tt;
     register_label_provider := fun _ => ret tt |}.

Definition without_selinux : Loader unit :=
  {| IsUnderPostmaster := false;
     selinux_enabled := fun _ => 0;
     owncon := fun _ => Some server_t;
     DefineCustomBoolVariable := fun _ boot => ret boot;
     avc_init := ret tt;
     register_label_provider := fun _ => ret tt |}.

Definition no_hooks : hook_variables :=
  {| object_access_hook := None;
     ClientAuthentication_hook := None;
     ExecutorCheckPerms_hook := None;
     needs_fmgr_hook := None;
     fmgr_hook := None;
     ProcessUtility_hook := None;
     ExecutorStart_hook := None |}.

(** Another module has hooked the executor before. *)
Definition other_module : hook_variables :=
  {| object_access_hook := None;
     ClientAuthentication_hook := None;
     ExecutorCheckPerms_hook := Some (elsewhere 4096);
     needs_fmgr_hook := None;
     fmgr_hook := None;
     ProcessUtility_hook := None;
     ExecutorStart_hook := Some (elsewhere 8192) |}.

Definition fresh_process : process unit :=
  {| backend := {| client_label := None;
                   sepgsql_mode := SEPGSQL_MODE_INTERNAL;
                   sepgsql_context_info :=
                     {| cmdtype := T_VacuumStmt; createdb_dtemplate := None |};
                   sepgsql_permissive := true;
                   sepgsql_debug_audit := true;
                   host := tt |};
     installed := other_module;
     saved := no_hooks |}.

(** A stacked fmgr hook that counts its calls in its private word. *)
Definition counting_chain : HookChain unit :=
  {| next_object_access_hook := None;
     next_client_auth_hook := None;
     next_exec_check_perms_hook := None;
     next_needs_fmgr_hook := Some (fun _ => ret true);
     next_fmgr_hook := Some (fun _ _ => modify (fun s => (fst s + 1, snd s)));
     next_ProcessUtility_hook := None;
     next_ExecutorStart_hook := None |}.

(** Stacked hooks that fail. *)
Definition failing_chain : HookChain unit :=
  {| next_object_access_hook := Some (fun _ _ _ _ => elog ERROR "stacked");
     next_client_auth_hook := Some (fun _ _ => elog FATAL "stacked");
     next_exec_check_perms_hook := Some (fun _ _ => elog ERROR "stacked");
     next_needs_fmgr_hook := Some (fun _ => elog ERROR "stacked");
     next_fmgr_hook := Some (fun _ _ => elog ERROR "stacked");
     next_ProcessUtility_hook := Some (fun _ _ _ _ _ _ => elog ERROR "stacked");
     next_ExecutorStart_hook := Some (fun _ _ => elog ERROR "stacked") |}.

(** The policy of the small session, but with the transition to the
    target label of function 42 denied. *)
Definition transition_denied : Oracle unit :=
  {| peercon := peercon Scenario.policy;
     trusted_proc := trusted_proc Scenario.policy;
     allowed := allowed Scenario.policy;
     allowed_label := fun _ _ _ _ => false |}.

(** Two calls of the same function: one ends, one is aborted after
    the wrapped call switched the label and the context. *)
Definition two_calls : list (activation unit) :=
  [ {| wrapped_call := entered T_SelectStmt; ending := FHET_END |};
    {| wrapped_call := with_client_label (Some "u:r:other_t:s0");
       ending := FHET_ABORT |} ].

Definition idle_area : fmgr_stack :=
  {| old_label := None;
     new_label := Some Scenario.trusted_t;
     next_private := 0 |}.

End Startup.

(** * Properties *)

(** ** Generic facts on computations *)

Lemma result_eta S A (r : result S A) :
  Result (out r) (final r) (calls r) = r.
Proof. destruct r; reflexivity. Qed.

Lemma bind_ok S A B (m : Comp S A) (k : A -> Comp S B) s a :
  out (m s) = Ok a ->
  bind m k s =
  Result (out (k a (final (m s)))) (final (k a (final (m s))))
         (calls (m s) ++ calls (k a (final (m s)))).
Proof. intros E. unfold bind. rewrite E. reflexivity. Qed.

Lemma bind_err S A B (m : Comp S A) (k : A -> Comp S B) s f :
  out (m s) = Err f ->
  bind m k s = Result (Err f) (final (m s)) (calls (m s)).
Proof. intros E. unfold bind. rewrite E. reflexivity. Qed.

Lemma bind_pure S A B (m : Comp S A) (k : A -> Comp S B) s a :
  m s = Result (Ok a) s [] ->
  bind m k s = k a s.
Proof. intros E. unfold bind. rewrite E. simpl. apply result_eta. Qed.

Lemma bind_known S A B (m : Comp S A) (k : A -> Comp S B) s a s' c :
  m s = Result (Ok a) s' c ->
  bind m k s = Result (out (k a s')) (final (k a s')) (c ++ calls (k a s')).
Proof. intros E. unfold bind. rewrite E. reflexivity. Qed.

Lemma bind_known_err S A B (m : Comp S A) (k : A -> Comp S B) s f s' c :
  m s = Result (Err f) s' c ->
  bind m k s = Result (Err f) s' c.
Proof. intros E. unfold bind. rewrite E. reflexivity. Qed.

Lemma with_context_info_same Host (w : world Host) :
  with_context_info (sepgsql_context_info w) w = w.
Proof. destruct w; reflexivity. Qed.

Lemma with_context_info_twice Host c c' (w : world Host) :
  with_context_info c (with_context_info c' w) = with_context_info c w.
Proof. reflexivity. Qed.

Lemma guarded_spec Host saved (body : M Host unit) (w : world Host) :
  guarded saved body w =
  Result (out (body w))
         (if returns_control (out (body w))
          then with_context_info saved (final (body w))
          else final (body w))
         (calls (body w)).
Proof.
  unfold guarded, bind, PG_TRY, PG_RE_THROW, raise, modify.
  destruct (body w) as [o w' c]; simpl.
  destruct o as [[]|f]; simpl.
  - now rewrite app_nil_r.
  - destruct (unwinds f) eqn:U; simpl; rewrite ?U, ?app_nil_r; reflexivity.
Qed.

(** ** Context tracker: [sepgsql_utility_command], [sepgsql_executor_start] *)

Section ContextTracker.
Variable Host : Type.
Variable chain : HookChain Host.
Variable callee : Callees Host.

Lemma utility_command_guarded parsetree queryString params isTopLevel dest tag
    (w : world Host) :
  sepgsql_utility_command chain callee parsetree queryString params
    isTopLevel dest tag w =
  guarded (sepgsql_context_info w)
    (set_cmdtype (nodeTag parsetree) ;;
     match nodeTag parsetree with
     | T_CreatedbStmt => scan_template (CreatedbStmt_options parsetree)
     | T_LoadStmt =>
         do enforce <- sepgsql_getenforce ;
         if enforce then
           ereport ERROR ERRCODE_INSUFFICIENT_PRIVILEGE
                   "SELinux: LOAD is not permitted"
         else ret tt
     | _ => ret tt
     end ;;
     delegate_ProcessUtility chain callee parsetree queryString params
       isTopLevel dest tag) w.
Proof.
  unfold sepgsql_utility_command, guarded, delegate_ProcessUtility.
  unfold bind at 1. simpl.
  destruct (bind _ _ w) as [o w' c]. reflexivity.
Qed.

Lemma executor_start_guarded queryDesc eflags (w : world Host) :
  sepgsql_executor_start chain callee queryDesc eflags w =
  guarded (sepgsql_context_info w)
    (match operation queryDesc with
     | CMD_SELECT => set_cmdtype T_SelectStmt
     | CMD_INSERT => set_cmdtype T_InsertStmt
     | CMD_DELETE => set_cmdtype T_DeleteStmt
     | CMD_UPDATE => set_cmdtype T_UpdateStmt
     | _ => ret tt
     end ;;
     delegate_ExecutorStart chain callee queryDesc eflags) w.
Proof.
  unfold sepgsql_executor_start, guarded, delegate_ExecutorStart.
  unfold bind at 1. simpl.
  destruct (bind _ _ w) as [o w' c]. reflexivity.
Qed.

Lemma utility_command_restores parsetree queryString params isTopLevel dest tag
    (w : world Host) :
  let r := sepgsql_utility_command chain callee parsetree queryString params
             isTopLevel dest tag w in
  returns_control (out r) = true ->
  sepgsql_context_info (final r) = sepgsql_context_info w.
Proof.
  intros r. subst r.
  rewrite utility_command_guarded, guarded_spec. simpl.
  intros ->. reflexivity.
Qed.

Lemma executor_start_restores queryDesc eflags (w : world Host) :
  let r := sepgsql_executor_start chain callee queryDesc eflags w in
  returns_control (out r) = true ->
  sepgsql_context_info (final r) = sepgsql_context_info w.
Proof.
  intros r. subst r.
  rewrite executor_start_guarded, guarded_spec. simpl.
  intros ->. reflexivity.
Qed.

End ContextTracker.

Section NestedDispatch.
Variable Host : Type.
Variable chain : HookChain Host.
Variable callee : Callees Host.

Lemma enter_restores (e : entry) (inside : M Host unit) (w : world Host) :
  let r := enter chain callee e inside w in
  returns_control (out r) = true ->
  sepgsql_context_info (final r) = sepgsql_context_info w.
Proof.
  destruct e; unfold enter.
  - apply utility_command_restores.
  - apply executor_start_restores.
Qed.

(** C2.  Whatever the nested dispatch does, and however it is left
    (normal return, denial, any other error unwinding through it), the
    contextual information (command kind and template database) found
    after [sepgsql_utility_command] or [sepgsql_executor_start] gives
    control back is the one that was there on entry.  The same holds
    for any stack of nested entries with arbitrary work between them:
    after the outermost exit the context is that before the outermost
    entry. *)
Theorem context_restored_on_every_exit :
  (forall parsetree queryString params isTopLevel dest tag (w : world Host),
     let r := sepgsql_utility_command chain callee parsetree queryString
                params isTopLevel dest tag w in
     returns_control (out r) = true ->
     sepgsql_context_info (final r) = sepgsql_context_info w)
  /\
  (forall queryDesc eflags (w : world Host),
     let r := sepgsql_executor_start chain callee queryDesc eflags w in
     returns_control (out r) = true ->
     sepgsql_context_info (final r) = sepgsql_context_info w)
  /\
  (forall (outermost : level Host) (inner : list (level Host))
          (innermost : M Host unit) (w : world Host),
     let r := nested chain callee (outermost :: inner) innermost w in
     returns_control (out r) = true ->
     sepgsql_context_info (final r) = sepgsql_context_info w).
Proof.
  split; [|split].
  - intros. now apply utility_command_restores.
  - intros. now apply executor_start_restores.
  - intros outermost inner innermost w. cbn [nested]. apply enter_restores.
Qed.

End NestedDispatch.

(** ** Utility command guard: LOAD *)

Section UtilityCommandGuard.
Variable Host : Type.
Variable chain : HookChain Host.
Variable callee : Callees Host.

Lemma delegate_ProcessUtility_calls parsetree queryString params isTopLevel
    dest tag (w : world Host) :
  exists rest,
    calls (delegate_ProcessUtility chain callee parsetree queryString params
             isTopLevel dest tag w) =
    (if is_null (next_ProcessUtility_hook chain)
     then call_standard ProcessUtility
     else call_next ProcessUtility) :: rest.
Proof.
  unfold delegate_ProcessUtility.
  destruct (next_ProcessUtility_hook chain) as [h|]; simpl;
    unfold bind; simpl.
  - destruct (h _ _ _ _ _ _ w) as [[[]|f] w' c]; simpl; eauto.
  - destruct (standard_ProcessUtility _ _ _ _ _ _ _ w) as [[[]|f] w' c];
      simpl; eauto.
Qed.

(** C6.  A LOAD statement dispatched in Enforcing mode
    ([SEPGSQL_MODE_DEFAULT]) is refused with an access-control error
    ([ERROR], insufficient privilege): neither the stacked hook nor the
    standard utility processing is called (no outbound call at all is
    made) and the backend state is left as it was.  Dispatched in any
    other mode (Permissive for one), it is handed to the stacked hook
    if there is one, to the standard processing otherwise, with the
    command kind set to LOAD; the outcome is the delegate's. *)
Theorem load_refused_only_when_enforcing :
  forall parsetree queryString params isTopLevel dest tag (w : world Host),
    nodeTag parsetree = T_LoadStmt ->
    (sepgsql_mode w = SEPGSQL_MODE_DEFAULT ->
     sepgsql_utility_command chain callee parsetree queryString params
       isTopLevel dest tag w =
     Result (Err (Ereport ERROR ERRCODE_INSUFFICIENT_PRIVILEGE
                          "SELinux: LOAD is not permitted"))
            w [])
    /\
    (sepgsql_mode w <> SEPGSQL_MODE_DEFAULT ->
     let d := delegate_ProcessUtility chain callee parsetree queryString
                params isTopLevel dest tag (entered T_LoadStmt w) in
     sepgsql_utility_command chain callee parsetree queryString params
       isTopLevel dest tag w =
     Result (out d)
            (if returns_control (out d)
             then with_context_info (sepgsql_context_info w) (final d)
             else final d)
            (calls d)
     /\
     exists rest,
       calls d = (if is_null (next_ProcessUtility_hook chain)
                  then call_standard ProcessUtility
                  else call_next ProcessUtility) :: rest).
Proof.
  intros parsetree queryString params isTopLevel dest tag w Htag.
  split; intros Hmode.
  - rewrite utility_command_guarded, guarded_spec, Htag.
    unfold bind, set_cmdtype, sepgsql_getenforce, modify, get, ret, ereport,
      raise. simpl. rewrite Hmode. simpl.
    destruct w; reflexivity.
  - split; [|apply delegate_ProcessUtility_calls].
    rewrite utility_command_guarded, guarded_spec, Htag.
    assert (E : forall k : M Host unit,
               (set_cmdtype T_LoadStmt ;;
                (do enforce <- sepgsql_getenforce ;
                 if enforce then
                   ereport ERROR ERRCODE_INSUFFICIENT_PRIVILEGE
                           "SELinux: LOAD is not permitted"
                 else ret tt) ;; k) w
               = k (entered T_LoadStmt w)).
    { intros k.
      unfold bind, set_cmdtype, sepgsql_getenforce, modify, get, ret. simpl.
      destruct (sepgsql_mode w); try congruence; simpl;
        apply result_eta. }
    rewrite E. reflexivity.
Qed.

End UtilityCommandGuard.

(** ** Authentication handler: [sepgsql_client_auth] *)

Section Authentication.
Variable Host : Type.
Variable chain : HookChain Host.
Variable oracle : Oracle Host.

Lemma bind_ret_tt S (m : Comp S unit) s :
  bind m (fun _ => ret tt) s = m s.
Proof.
  unfold bind, ret. destruct (m s) as [[[]|f] s' c]; simpl;
    rewrite ?app_nil_r; reflexivity.
Qed.

(** C7.  When authentication completed with [STATUS_OK] (and the
    stacked authentication hook, if any, returned), and the transport
    yields the label [context] of the peer, the handler returns, the
    client label is [context], and the performing mode is Permissive
    if [sepgsql.permissive] is on and Enforcing
    ([SEPGSQL_MODE_DEFAULT]) otherwise; nothing else of the state
    changes. *)
Theorem client_auth_sets_label_and_mode :
  forall port status (w : world Host) context,
    status = STATUS_OK ->
    let d := delegate_client_auth chain port status w in
    out d = Ok tt ->
    peercon oracle (final d) (sock port) = Some context ->
    let r := sepgsql_client_auth chain oracle port status w in
    out r = Ok tt /\
    client_label (final r) = Some context /\
    sepgsql_mode (final r) =
      (if sepgsql_permissive (final d)
       then SEPGSQL_MODE_PERMISSIVE else SEPGSQL_MODE_DEFAULT) /\
    final r =
      with_mode (if sepgsql_permissive (final d)
                 then SEPGSQL_MODE_PERMISSIVE else SEPGSQL_MODE_DEFAULT)
        (with_client_label (Some context) (final d)) /\
    calls r = calls d ++ [call_getpeercon_raw (sock port)].
Proof.
  intros port status w context -> d Hd Hpeer r. subst r.
  unfold sepgsql_client_auth. fold (delegate_client_auth chain port STATUS_OK).
  rewrite (bind_ok _ _ _ Hd). fold d. simpl.
  unfold bind, getpeercon_raw, emit, get, ret, gets, modify,
    sepgsql_set_client_label, sepgsql_set_mode. simpl.
  rewrite Hpeer. simpl.
  destruct (sepgsql_permissive (final d)); simpl; repeat split; reflexivity.
Qed.

(** C8.  When authentication completed with [STATUS_OK] (and the
    stacked hook, if any, returned) but the transport yields no peer
    label, the handler raises a FATAL error: the backend ends there, no
    [PG_TRY] handler gets control, and neither the client label nor the
    mode was touched. *)
Theorem client_auth_fatal_without_peer_label :
  forall port status (w : world Host),
    status = STATUS_OK ->
    let d := delegate_client_auth chain port status w in
    out d = Ok tt ->
    peercon oracle (final d) (sock port) = None ->
    let r := sepgsql_client_auth chain oracle port status w in
    out r = Err (Ereport FATAL ERRCODE_INTERNAL_ERROR
                         "SELinux: unable to get peer label: %m") /\
    returns_control (out r) = false /\
    final r = final d /\
    calls r = calls d ++ [call_getpeercon_raw (sock port)].
Proof.
  intros port status w -> d Hd Hpeer r. subst r.
  unfold sepgsql_client_auth. fold (delegate_client_auth chain port STATUS_OK).
  rewrite (bind_ok _ _ _ Hd). fold d. simpl.
  unfold bind, getpeercon_raw, emit, get, ret, ereport, raise. simpl.
  rewrite Hpeer. simpl. repeat split; reflexivity.
Qed.

(** C10.  When authentication completed with a status other than
    [STATUS_OK], the handler does what the stacked authentication hook
    does and nothing more: same outcome, same final state (so the
    client label and the mode are as the stacked hook left them, and
    as they were if no hook is stacked), same outbound calls (so
    [getpeercon_raw] is not called). *)
Theorem client_auth_failed_status_only_delegates :
  forall port status (w : world Host),
    status <> STATUS_OK ->
    let d := delegate_client_auth chain port status w in
    let r := sepgsql_client_auth chain oracle port status w in
    r = d /\
    client_label (final r) = client_label (final d) /\
    sepgsql_mode (final r) = sepgsql_mode (final d) /\
    calls r = calls d /\
    (next_client_auth_hook chain = None -> r = Result (Ok tt) w []).
Proof.
  intros port status w Hstatus d r.
  assert (E : r = d).
  { subst r d. unfold sepgsql_client_auth.
    fold (delegate_client_auth chain port status).
    destruct (Z.eqb_spec status STATUS_OK) as [|_]; [contradiction|].
    simpl. apply bind_ret_tt. }
  rewrite E. repeat split.
  intros Hnone. subst d. unfold delegate_client_auth. rewrite Hnone.
  reflexivity.
Qed.

End Authentication.

(** ** DML permission gate: [sepgsql_exec_check_perms] *)

Section DmlGate.
Variable Host : Type.
Variable chain : HookChain Host.
Variable callee : Callees Host.

(** C4.  If a stacked DML handler answers "denied", this layer answers
    "denied" and does nothing else: its result, final state and
    outbound calls are exactly those of the delegation, so
    [sepgsql_dml_privileges] is not called.  Otherwise the answer is
    the conjunction of the stacked answer (true when nothing is
    stacked) and of this layer's own evaluation by
    [sepgsql_dml_privileges], which is then called exactly once, after
    the stacked handler. *)
Theorem dml_gate_is_conjunctive :
  forall rangeTabls abort (w : world Host),
    let d := delegate_exec_check_perms chain rangeTabls abort w in
    let own := sepgsql_dml_privileges callee rangeTabls abort (final d) in
    let r := sepgsql_exec_check_perms chain callee rangeTabls abort w in
    (out d = Ok false -> next_exec_check_perms_hook chain <> None /\ r = d)
    /\
    (forall stacked mine,
       out d = Ok stacked ->
       (stacked = true -> out own = Ok mine) ->
       out r = Ok (stacked && mine))
    /\
    (out d = Ok true ->
       final r = final own /\
       calls r = calls d ++ calls own /\
       exists rest, calls own = call_dml_privileges rangeTabls abort :: rest).
Proof.
  intros rangeTabls abort w d own r.
  assert (R : r = bind (delegate_exec_check_perms chain rangeTabls abort)
                (fun stacked =>
                   if negb stacked then ret false
                   else do ok <- sepgsql_dml_privileges callee rangeTabls abort ;
                        if negb ok then ret false else ret true) w)
    by reflexivity.
  split; [|split].
  - intros Hd. split.
    + subst d. unfold delegate_exec_check_perms in Hd.
      destruct (next_exec_check_perms_hook chain); [discriminate|].
      discriminate Hd.
    + rewrite R, (bind_ok _ _ _ Hd). fold d. simpl. rewrite app_nil_r.
      rewrite <- Hd. apply result_eta.
  - intros stacked mine Hd Hown. rewrite R, (bind_ok _ _ _ Hd). fold d.
    destruct stacked; simpl; [|reflexivity].
    specialize (Hown eq_refl). rewrite (bind_ok _ _ _ Hown). fold own.
    destruct mine; reflexivity.
  - intros Hd. rewrite R, (bind_ok _ _ _ Hd). fold d. simpl.
    unfold bind at 1 2. fold own.
    assert (C : exists rest,
               calls own = call_dml_privileges rangeTabls abort :: rest).
    { subst own. unfold sepgsql_dml_privileges, bind, emit. simpl.
      destruct (dml_privileges callee rangeTabls abort (final d))
        as [[b|f] w' c]; simpl; eauto. }
    destruct (out own) as [[]|f]; simpl; rewrite ?app_nil_r; auto.
Qed.

End DmlGate.

(** ** Object-lifecycle dispatcher: [sepgsql_object_access] *)

Lemma creates_relation_allow_list (t : NodeTag) :
  creates_relation t = true <-> In t allow_list.
Proof.
  unfold allow_list. split.
  - destruct t; simpl; intros H; try discriminate H; tauto.
  - simpl. intros H. repeat (destruct H as [<-|H]; [reflexivity|]).
    contradiction.
Qed.

Section ObjectLifecycle.
Variable Host : Type.
Variable chain : HookChain Host.
Variable callee : Callees Host.

Lemma unsupported_class_tests (classId : Oid) :
  supported_class classId = false ->
  (classId =? DatabaseRelationId) = false /\
  (classId =? NamespaceRelationId) = false /\
  (classId =? RelationRelationId) = false /\
  (classId =? ProcedureRelationId) = false.
Proof.
  unfold supported_class. intros H.
  repeat (apply orb_false_elim in H; destruct H as [H ?]). auto.
Qed.

(** C5.  For a creation-completed event on a whole relation
    ([RelationRelationId], [subId = 0], the stacked hook having
    returned), [sepgsql_relation_post_create] is called if and only if
    the command kind of the current context is in the allow-list
    (table creation, view, sequence, composite type, foreign table,
    select-into); it is then the only thing this layer does.  For any
    other command kind the event is a no-op: the result is the stacked
    hook's, if any.  An event on an object class without a case is a
    no-op in the same sense. *)
Theorem relation_creation_follows_allow_list :
  forall objectId (w : world Host),
    (let d := delegate_object_access chain OAT_POST_CREATE
                RelationRelationId objectId 0 w in
     let r := sepgsql_object_access chain callee OAT_POST_CREATE
                RelationRelationId objectId 0 w in
     let kind := cmdtype (sepgsql_context_info (final d)) in
     let handler := relation_post_create callee objectId (final d) in
     out d = Ok tt ->
     (In kind allow_list ->
        out r = out handler /\
        final r = final handler /\
        calls r = calls d ++ call_relation_post_create objectId :: calls handler)
     /\
     (~ In kind allow_list -> r = d)
     /\
     ((exists rest,
         calls r = calls d ++ call_relation_post_create objectId :: rest)
      <-> In kind allow_list))
    /\
    (forall classId subId,
       supported_class classId = false ->
       sepgsql_object_access chain callee OAT_POST_CREATE classId objectId
         subId w =
       delegate_object_access chain OAT_POST_CREATE classId objectId subId w).
Proof.
  intros objectId w. split.
  - intros d r kind handler Hd.
    assert (Hyes : In kind allow_list ->
              out r = out handler /\ final r = final handler /\
              calls r = calls d ++
                        call_relation_post_create objectId :: calls handler).
    { intros Hin. apply creates_relation_allow_list in Hin.
      subst r. unfold sepgsql_object_access.
      fold (delegate_object_access chain OAT_POST_CREATE RelationRelationId
              objectId 0).
      rewrite (bind_ok _ _ _ Hd). fold d. simpl. fold kind. rewrite Hin.
      unfold sepgsql_relation_post_create, bind, emit. simpl. fold handler.
      destruct (out handler); simpl; auto. }
    assert (Hno : ~ In kind allow_list -> r = d).
    { intros Hout. rewrite <- creates_relation_allow_list in Hout.
      apply not_true_is_false in Hout.
      subst r. unfold sepgsql_object_access.
      fold (delegate_object_access chain OAT_POST_CREATE RelationRelationId
              objectId 0).
      rewrite (bind_ok _ _ _ Hd). fold d. simpl. fold kind. rewrite Hout. simpl.
      rewrite app_nil_r, <- Hd. apply result_eta. }
    split; [exact Hyes|]. split; [exact Hno|].
    split.
    + intros [rest Hcalls].
      destruct (in_dec NodeTag_eq_dec kind allow_list) as [Hin|Hout];
        [exact Hin|].
      rewrite (Hno Hout) in Hcalls.
      apply (f_equal (@List.length call)) in Hcalls.
      rewrite length_app in Hcalls. simpl in Hcalls. lia.
    + intros Hin. exists (calls handler). apply Hyes, Hin.
  - intros classId subId Hclass.
    apply unsupported_class_tests in Hclass.
    destruct Hclass as (H1 & H2 & H3 & H4).
    unfold sepgsql_object_access.
    fold (delegate_object_access chain OAT_POST_CREATE classId objectId subId).
    rewrite H1, H2, H3, H4. apply bind_ret_tt.
Qed.

End ObjectLifecycle.

(** ** Needs-wrapper query: [sepgsql_needs_fmgr_hook] *)

Section NeedsWrapper.
Variable Host : Type.
Variable chain : HookChain Host.
Variable oracle : Oracle Host.

(** C9.  For every function, once the stacked query (if any) has
    answered, [sepgsql_needs_fmgr_hook] answers, and it answers yes
    exactly when the stacked answer is yes, or the policy gives the
    function a label to switch to (a trusted procedure), or the client
    is not allowed [db_procedure:{execute}] on the function. *)
Theorem needs_fmgr_hook_answer :
  forall functionId (w : world Host) stacked,
    let d := delegate_needs_fmgr chain functionId w in
    let r := sepgsql_needs_fmgr_hook chain oracle functionId w in
    let object := {| classId := ProcedureRelationId;
                     objectId := functionId;
                     objectSubId := 0 |} in
    out d = Ok stacked ->
    exists answer,
      out r = Ok answer /\
      final r = final d /\
      (answer = true <->
       stacked = true \/
       trusted_proc oracle (final d) functionId <> None \/
       allowed oracle (final d) object SEPG_CLASS_DB_PROCEDURE
         SEPG_DB_PROCEDURE__EXECUTE = false).
Proof.
  intros functionId w stacked d r object Hd.
  subst r. unfold sepgsql_needs_fmgr_hook.
  fold (delegate_needs_fmgr chain functionId).
  rewrite (bind_ok _ _ _ Hd). fold d.
  destruct stacked; simpl.
  - exists true. repeat split; auto.
  - unfold bind, sepgsql_avc_trusted_proc, sepgsql_avc_check_perms, emit, get,
      ret. simpl.
    destruct (trusted_proc oracle (final d) functionId) as [nl|] eqn:T; simpl.
    + exists true. repeat split; auto. intros _. right. left. discriminate.
    + fold object.
      destruct (allowed oracle (final d) object SEPG_CLASS_DB_PROCEDURE
                  SEPG_DB_PROCEDURE__EXECUTE) eqn:A; simpl.
      * exists false. repeat split; try discriminate.
        intros [H|[H|H]]; congruence.
      * exists true. repeat split; auto.
Qed.

End NeedsWrapper.

(** ** Trusted-procedure transition manager: [sepgsql_fmgr_hook] *)

Section TrustedProcedure.
Variable Host : Type.
Variable chain : HookChain Host.
Variable oracle : Oracle Host.

(** START, once past the lookup of the area: what remains is the
    assertion, the switch of the label, and the stacked hook. *)
Lemma fmgr_start_on_area flinfo (stack : fmgr_stack) (w : world Host) :
  sepgsql_fmgr_hook chain oracle FHET_START flinfo (Some stack, w) =
  (Assert (is_null (old_label stack)) "!(stack->old_label)" ;;
   match new_label stack with
   | Some nl =>
       do old <- lift (sepgsql_set_client_label (Some nl)) ;
       set_old_label old
   | None => ret tt
   end ;;
   delegate_fmgr chain FHET_START flinfo) (Some stack, w).
Proof.
  unfold sepgsql_fmgr_hook, delegate_fmgr.
  rewrite (bind_pure _ _ (a := Some stack)) by reflexivity.
  rewrite (bind_pure _ _ (a := stack)) by reflexivity.
  reflexivity.
Qed.

(** END and ABORT on an area that holds a remembered label: the
    stacked hook first, then the label is put back and forgotten. *)
Lemma fmgr_end_restores flinfo event (stack : fmgr_stack) (w : world Host) l :
  event = FHET_END \/ event = FHET_ABORT ->
  old_label stack = Some l ->
  let d := delegate_fmgr chain event flinfo (Some stack, w) in
  let r := sepgsql_fmgr_hook chain oracle event flinfo (Some stack, w) in
  (out d = Ok tt -> out r = Ok tt) /\
  (out r = Ok tt ->
   client_label (snd (final r)) = Some l /\
   exists stack',
     fst (final r) = Some stack' /\
     old_label stack' = None /\ new_label stack' = new_label stack).
Proof.
  intros Hevent Hold d r.
  assert (R : r = bind (delegate_fmgr chain event flinfo)
                (fun _ =>
                   do stack <- deref ;
                   match old_label stack with
                   | Some ol => lift (sepgsql_set_client_label (Some ol)) ;; ret tt
                   | None => ret tt
                   end ;;
                   set_old_label None) (Some stack, w))
    by (destruct Hevent; subst; reflexivity).
  assert (A : exists np w',
             out d = Ok tt ->
             final d = (Some {| old_label := old_label stack;
                                new_label := new_label stack;
                                next_private := np |}, w')).
  { subst d. unfold delegate_fmgr, call_if_set.
    destruct (next_fmgr_hook chain) as [h|]; simpl.
    - unfold bind, emit, with_next_private. simpl.
      destruct (h event flinfo (next_private stack, w)) as [o [np w'] c].
      exists np, w'. reflexivity.
    - exists (next_private stack), w. destruct stack; reflexivity. }
  destruct A as (np & w' & A).
  destruct (out d) as [[]|f] eqn:Hd.
  - rewrite R, (bind_ok _ _ _ Hd). fold d. rewrite (A eq_refl).
    unfold bind, deref, get_private, gets, ret. simpl. rewrite Hold.
    unfold lift, set_old_label, set_private, modify, sepgsql_set_client_label,
      bind, deref, get_private, gets, get, ret. simpl.
    split; [reflexivity|]. intros _. split; [reflexivity|].
    eexists. repeat split.
  - rewrite R, (bind_err _ _ _ Hd). simpl. split; discriminate.
Qed.

(** After a START that returned, the area of a trusted procedure
    remembers the label the client had when START was called. *)
Lemma fmgr_start_tail_remembers flinfo (stack : fmgr_stack) (w : world Host) :
  let r := (Assert (is_null (old_label stack)) "!(stack->old_label)" ;;
            match new_label stack with
            | Some nl =>
                do old <- lift (sepgsql_set_client_label (Some nl)) ;
                set_old_label old
            | None => ret tt
            end ;;
            delegate_fmgr chain FHET_START flinfo) (Some stack, w) in
  out r = Ok tt ->
  exists stack',
    fst (final r) = Some stack' /\
    new_label stack' = new_label stack /\
    (new_label stack <> None -> old_label stack' = client_label w).
Proof.
  destruct stack as [ol nl np]. intros r. subst r.
  destruct ol as [ol|]; [discriminate|].
  unfold delegate_fmgr, call_if_set.
  destruct nl as [nl|]; destruct (next_fmgr_hook chain) as [h|];
    unfold bind, Assert, lift, set_old_label, set_private, modify,
      sepgsql_set_client_label, deref, get_private, gets, get, ret, emit,
      with_next_private; simpl;
    try match goal with
        | |- context [h ?e ?f ?s] =>
            destruct (h e f s) as [[[]|?] [np' w'] c]; simpl
        end;
    intros E; try discriminate E;
    eexists; repeat split; intros N; congruence.
Qed.

Lemma fmgr_start_remembers flinfo (private0 : slot) (w0 : world Host) stack :
  let started := sepgsql_fmgr_hook chain oracle FHET_START flinfo
                   (private0, w0) in
  out started = Ok tt ->
  fst (final started) = Some stack ->
  new_label stack <> None ->
  old_label stack = client_label w0.
Proof.
  intros started Hstarted Hstack Htrusted.
  destruct private0 as [stack0|].
  - subst started. rewrite fmgr_start_on_area in Hstarted, Hstack.
    destruct (fmgr_start_tail_remembers flinfo stack0 w0 Hstarted)
      as (stack' & Hs & Hn & Ho).
    rewrite Hs in Hstack. injection Hstack as <-.
    apply Ho. congruence.
  - pose (fresh := {| old_label := None;
                      new_label := trusted_proc oracle w0 (fn_oid flinfo);
                      next_private := 0 |}).
    assert (E : out started = Ok tt ->
                out started =
                  out (sepgsql_fmgr_hook chain oracle FHET_START flinfo
                         (Some fresh, w0)) /\
                final started =
                  final (sepgsql_fmgr_hook chain oracle FHET_START flinfo
                           (Some fresh, w0))).
    { rewrite fmgr_start_on_area. subst started.
      unfold sepgsql_fmgr_hook. fold (delegate_fmgr chain FHET_START flinfo).
      rewrite (bind_pure _ _ (a := (None : slot))) by reflexivity.
      match goal with
      | |- context [bind ?m ?k (None, w0)] =>
          assert (P : (exists cs, m (None, w0) =
                                  Result (Ok fresh) (Some fresh, w0) cs) \/
                      (exists f s cs, m (None, w0) = Result (Err f) s cs))
      end.
      { unfold bind, lift, sepgsql_avc_trusted_proc,
          sepgsql_avc_check_perms_label, set_private, modify, emit, get, ret,
          ereport, raise. simpl. subst fresh.
        destruct (trusted_proc oracle w0 (fn_oid flinfo)) as [nl|]; simpl;
          [|eauto].
        destruct (allowed_label oracle w0 nl SEPG_CLASS_PROCESS
                    SEPG_PROCESS__TRANSITION); simpl; eauto 6. }
      destruct P as [(cs & P)|(f & s & cs & P)].
      - rewrite (bind_known _ _ _ P). simpl. auto.
      - rewrite (bind_known_err _ _ _ P). simpl. discriminate. }
    destruct (E Hstarted) as [Eo Ef].
    rewrite Eo in Hstarted. rewrite Ef in Hstack.
    rewrite fmgr_start_on_area in Hstarted, Hstack.
    destruct (fmgr_start_tail_remembers flinfo fresh w0 Hstarted)
      as (stack' & Hs & Hn & Ho).
    rewrite Hs in Hstack. injection Hstack as <-.
    apply Ho. congruence.
Qed.

(** X10.  A denied [process:transition] stops START on a fresh slot
    before the label is switched: the state is as it was, the slot is
    still empty, and the check was the last thing done. *)
Lemma fmgr_start_denied_before_swap flinfo (w : world Host) nl :
  trusted_proc oracle w (fn_oid flinfo) = Some nl ->
  allowed_label oracle w nl SEPG_CLASS_PROCESS SEPG_PROCESS__TRANSITION = false ->
  sepgsql_fmgr_hook chain oracle FHET_START flinfo (None, w) =
  Result (Err (Ereport ERROR ERRCODE_INSUFFICIENT_PRIVILEGE
                       "SELinux: security policy violation"))
         (None, w)
         [ call_avc_trusted_proc (fn_oid flinfo);
           call_avc_check_perms_label nl SEPG_CLASS_PROCESS
             SEPG_PROCESS__TRANSITION AUDIT_NULL true ].
Proof.
  intros Htrusted Hdenied.
  unfold sepgsql_fmgr_hook.
  rewrite (bind_pure _ _ (a := (None : slot))) by reflexivity.
  match goal with
  | |- bind ?m ?k (None, w) = Result (Err ?f) ?s ?cs =>
      assert (P : m (None, w) = Result (Err f) s cs)
  end.
  { unfold bind, lift, sepgsql_avc_trusted_proc,
      sepgsql_avc_check_perms_label, set_private, modify, emit, get, ret,
      ereport, raise. simpl.
    rewrite Htrusted. simpl. rewrite Hdenied. reflexivity. }
  exact (bind_known_err _ _ _ P).
Qed.

(** C1.  Take an activation of a trusted procedure: START returned on
    the caller's slot and left an area whose target label is set.  Let
    the wrapped call end in any state whatever, normally or by an
    error, and let END or ABORT be delivered once on the same slot.  If
    that handler returns, the client label is the one in effect
    immediately before START (and the remembered label is cleared);
    and the handler does return whenever the stacked hook, if any,
    returns. *)
Theorem trusted_procedure_label_round_trip :
  forall flinfo (private0 : slot) (w0 : world Host) label0,
    client_label w0 = Some label0 ->
    let started := sepgsql_fmgr_hook chain oracle FHET_START flinfo
                     (private0, w0) in
    out started = Ok tt ->
    forall stack,
      fst (final started) = Some stack ->
      new_label stack <> None ->
      forall event (w2 : world Host),
        event = FHET_END \/ event = FHET_ABORT ->
        let d := delegate_fmgr chain event flinfo (Some stack, w2) in
        let ended := sepgsql_fmgr_hook chain oracle event flinfo
                       (Some stack, w2) in
        (out d = Ok tt -> out ended = Ok tt) /\
        (out ended = Ok tt ->
         client_label (snd (final ended)) = Some label0 /\
         exists stack',
           fst (final ended) = Some stack' /\ old_label stack' = None).
Proof.
  intros flinfo private0 w0 label0 Hlabel started Hstarted stack Hstack Htrusted
    event w2 Hevent d ended.
  assert (Hold : old_label stack = Some label0).
  { rewrite <- Hlabel.
    exact (fmgr_start_remembers flinfo private0 w0 Hstarted Hstack Htrusted). }
  destruct (fmgr_end_restores flinfo stack w2 Hevent Hold) as [H1 H2].
  split; [exact H1|].
  intros Hended. destruct (H2 Hended) as (Hl & stack' & Hs & Ho & _).
  split; [exact Hl|]. exists stack'. auto.
Qed.

(** C3.  START on a slot whose area already remembers a prior label
    fails the assertion [!(stack->old_label)]: the backend stops there
    (nothing can catch it), the area still holds the label it
    remembered, the client label is not switched, and no outbound call,
    not even to the stacked hook, is made. *)
Theorem second_start_is_rejected :
  forall flinfo (stack : fmgr_stack) (w : world Host) remembered,
    old_label stack = Some remembered ->
    let r := sepgsql_fmgr_hook chain oracle FHET_START flinfo (Some stack, w) in
    r = Result (Err (FailedAssertion "!(stack->old_label)")) (Some stack, w) []
    /\ returns_control (out r) = false
    /\ (exists stack', fst (final r) = Some stack' /\
                       old_label stack' = Some remembered)
    /\ client_label (snd (final r)) = client_label w.
Proof.
  intros flinfo stack w remembered Hold r.
  assert (E : r = Result (Err (FailedAssertion "!(stack->old_label)"))
                         (Some stack, w) []).
  { subst r. rewrite fmgr_start_on_area.
    unfold bind at 1. unfold Assert. rewrite Hold. reflexivity. }
  rewrite E. simpl. repeat split. exists stack. split; [reflexivity|exact Hold].
Qed.

End TrustedProcedure.

(** * The properties on the small session *)

Import Scenario.

Lemma context_restored_on_every_exit_witness :
  let r := sepgsql_utility_command no_chain failing
             (CreatedbStmt "db" [ {| defname := "template"; arg := "t0" |} ])
             "CREATE DATABASE db TEMPLATE t0" 0 true 0 0 in_create_table in
  returns_control (out r) = true /\
  sepgsql_context_info (final r) = sepgsql_context_info in_create_table.
Proof.
  split; [reflexivity|].
  apply (proj1 (@context_restored_on_every_exit unit no_chain failing)).
  reflexivity.
Defined.

Lemma load_refused_only_when_enforcing_witness :
  nodeTag (LoadStmt "$libdir/evil") = T_LoadStmt /\
  sepgsql_mode enforcing = SEPGSQL_MODE_DEFAULT /\
  sepgsql_utility_command no_chain quiet (LoadStmt "$libdir/evil")
    "LOAD '$libdir/evil'" 0 true 0 0 enforcing =
  Result (Err (Ereport ERROR ERRCODE_INSUFFICIENT_PRIVILEGE
                       "SELinux: LOAD is not permitted"))
         enforcing [].
Proof.
  split; [reflexivity|]. split; [reflexivity|].
  apply (proj1 (@load_refused_only_when_enforcing unit no_chain quiet
                  (LoadStmt "$libdir/evil") "LOAD '$libdir/evil'" 0 true 0 0
                  enforcing eq_refl)).
  reflexivity.
Defined.

Lemma client_auth_sets_label_and_mode_witness :
  STATUS_OK = STATUS_OK /\
  out (delegate_client_auth stacked_chain port5 STATUS_OK loaded) = Ok tt /\
  peercon policy (final (delegate_client_auth stacked_chain port5 STATUS_OK loaded))
    (sock port5) = Some peer_t /\
  client_label (final (sepgsql_client_auth stacked_chain policy port5
                         STATUS_OK loaded)) = Some peer_t /\
  sepgsql_mode (final (sepgsql_client_auth stacked_chain policy port5
                         STATUS_OK loaded)) = SEPGSQL_MODE_DEFAULT.
Proof.
  split; [reflexivity|]. split; [reflexivity|]. split; [reflexivity|].
  pose proof (@client_auth_sets_label_and_mode unit stacked_chain policy
                port5 STATUS_OK loaded peer_t eq_refl eq_refl eq_refl) as H.
  split; [exact (proj1 (proj2 H))|exact (proj1 (proj2 (proj2 H)))].
Defined.

Lemma client_auth_fatal_without_peer_label_witness :
  STATUS_OK = STATUS_OK /\
  out (delegate_client_auth no_chain port5 STATUS_OK loaded) = Ok tt /\
  peercon policy_no_peer
    (final (delegate_client_auth no_chain port5 STATUS_OK loaded))
    (sock port5) = None /\
  out (sepgsql_client_auth no_chain policy_no_peer port5 STATUS_OK loaded) =
  Err (Ereport FATAL ERRCODE_INTERNAL_ERROR
               "SELinux: unable to get peer label: %m").
Proof.
  split; [reflexivity|]. split; [reflexivity|]. split; [reflexivity|].
  exact (proj1 (@client_auth_fatal_without_peer_label unit no_chain
                  policy_no_peer port5 STATUS_OK loaded eq_refl eq_refl
                  eq_refl)).
Defined.

Lemma client_auth_failed_status_only_delegates_witness :
  STATUS_ERROR <> STATUS_OK /\
  sepgsql_client_auth stacked_chain policy port5 STATUS_ERROR loaded =
  delegate_client_auth stacked_chain port5 STATUS_ERROR loaded.
Proof.
  assert (N : STATUS_ERROR <> STATUS_OK) by discriminate.
  split; [exact N|].
  exact (proj1 (@client_auth_failed_status_only_delegates unit stacked_chain
                  policy port5 STATUS_ERROR loaded N)).
Defined.

Lemma dml_gate_is_conjunctive_witness :
  out (delegate_exec_check_perms stacked_chain [1; 2] true enforcing) = Ok false /\
  sepgsql_exec_check_perms stacked_chain quiet [1; 2] true enforcing =
  delegate_exec_check_perms stacked_chain [1; 2] true enforcing.
Proof.
  split; [reflexivity|].
  apply (proj1 (@dml_gate_is_conjunctive unit stacked_chain quiet [1; 2] true
                  enforcing)).
  reflexivity.
Defined.

Lemma relation_creation_follows_allow_list_witness :
  out (delegate_object_access no_chain OAT_POST_CREATE RelationRelationId
         16384 0 in_cluster) = Ok tt /\
  ~ In (cmdtype (sepgsql_context_info
          (final (delegate_object_access no_chain OAT_POST_CREATE
                    RelationRelationId 16384 0 in_cluster)))) allow_list /\
  sepgsql_object_access no_chain quiet OAT_POST_CREATE RelationRelationId
    16384 0 in_cluster =
  delegate_object_access no_chain OAT_POST_CREATE RelationRelationId 16384 0
    in_cluster.
Proof.
  assert (N : ~ In (cmdtype (sepgsql_context_info
                      (final (delegate_object_access no_chain OAT_POST_CREATE
                                RelationRelationId 16384 0 in_cluster))))
                allow_list).
  { simpl. intros H. repeat (destruct H as [H|H]; [discriminate H|]).
    exact H. }
  split; [reflexivity|]. split; [exact N|].
  exact (proj1 (proj2 (proj1 (@relation_creation_follows_allow_list unit
                                no_chain quiet 16384 in_cluster) eq_refl)) N).
Defined.

Lemma needs_fmgr_hook_answer_witness :
  out (delegate_needs_fmgr stacked_chain 42 enforcing) = Ok false /\
  exists answer,
    out (sepgsql_needs_fmgr_hook stacked_chain policy 42 enforcing) = Ok answer /\
    final (sepgsql_needs_fmgr_hook stacked_chain policy 42 enforcing) =
    final (delegate_needs_fmgr stacked_chain 42 enforcing) /\
    (answer = true <->
     false = true \/
     trusted_proc policy (final (delegate_needs_fmgr stacked_chain 42 enforcing))
       42 <> None \/
     allowed policy (final (delegate_needs_fmgr stacked_chain 42 enforcing))
       {| classId := ProcedureRelationId; objectId := 42; objectSubId := 0 |}
       SEPG_CLASS_DB_PROCEDURE SEPG_DB_PROCEDURE__EXECUTE = false).
Proof.
  split; [reflexivity|].
  exact (@needs_fmgr_hook_answer unit stacked_chain policy 42 enforcing false
           eq_refl).
Defined.

Lemma trusted_procedure_label_round_trip_witness :
  let started := sepgsql_fmgr_hook stacked_chain policy FHET_START func42
                   (None, enforcing) in
  let stack := {| old_label := Some client_t;
                  new_label := Some trusted_t;
                  next_private := 0 |} in
  let aborted := sepgsql_fmgr_hook stacked_chain policy FHET_ABORT func42
                   (Some stack, entered T_SelectStmt (snd (final started))) in
  client_label enforcing = Some client_t /\
  out started = Ok tt /\
  fst (final started) = Some stack /\
  client_label (snd (final started)) = Some trusted_t /\
  out aborted = Ok tt /\
  client_label (snd (final aborted)) = Some client_t.
Proof.
  intros started stack aborted.
  assert (T : new_label stack <> None) by discriminate.
  pose proof (@trusted_procedure_label_round_trip unit stacked_chain policy
                func42 None enforcing client_t eq_refl eq_refl stack
                eq_refl T FHET_ABORT
                (entered T_SelectStmt (snd (final started)))
                (or_intror eq_refl)) as [H1 H2].
  repeat (split; [reflexivity|]).
  exact (proj1 (H2 (H1 eq_refl))).
Defined.

Lemma second_start_is_rejected_witness :
  let started := sepgsql_fmgr_hook no_chain policy FHET_START func42
                   (None, enforcing) in
  let stack := {| old_label := Some client_t;
                  new_label := Some trusted_t;
                  next_private := 0 |} in
  final started = (Some stack, with_client_label (Some trusted_t) enforcing) /\
  old_label stack = Some client_t /\
  sepgsql_fmgr_hook no_chain policy FHET_START func42 (final started) =
  Result (Err (FailedAssertion "!(stack->old_label)")) (final started) [].
Proof.
  intros started stack.
  split; [reflexivity|]. split; [reflexivity|].
  exact (proj1 (@second_start_is_rejected unit no_chain policy func42 stack
                  (with_client_label (Some trusted_t) enforcing)
                  client_t eq_refl)).
Defined.

(** ** The scenarios of the specification, run *)

(** A whole relation created under CREATE TABLE is checked; the same
    event under CLUSTER (a rewrite through [make_new_heap]) is not. *)
Example scenario_relation_created :
  calls (sepgsql_object_access no_chain quiet OAT_POST_CREATE
           RelationRelationId 16384 0 in_create_table) =
  [call_relation_post_create 16384] /\
  calls (sepgsql_object_access no_chain quiet OAT_POST_CREATE
           RelationRelationId 16384 0 in_cluster) = [].
Proof. split; reflexivity. Qed.

(** LOAD in Permissive mode goes to the standard processing. *)
Example scenario_load_permissive :
  let r := sepgsql_utility_command no_chain quiet (LoadStmt "$libdir/plpgsql")
             "LOAD '$libdir/plpgsql'" 0 true 0 0 permissive in
  out r = Ok tt /\ calls r = [call_standard ProcessUtility] /\
  final r = permissive.
Proof. repeat split; reflexivity. Qed.

(** CREATE DATABASE: the first "template" option is the one the
    object-access hook sees during the command. *)
Example scenario_createdb_template :
  let seen := {| standard_ProcessUtility := fun _ _ _ _ _ _ =>
                   sepgsql_object_access no_chain quiet OAT_POST_CREATE
                     DatabaseRelationId 16385 0;
                 standard_ExecutorStart := standard_ExecutorStart quiet;
                 database_post_create := database_post_create quiet;
                 schema_post_create := schema_post_create quiet;
                 relation_post_create := relation_post_create quiet;
                 attribute_post_create := attribute_post_create quiet;
                 proc_post_create := proc_post_create quiet;
                 dml_privileges := dml_privileges quiet |} in
  let r := sepgsql_utility_command no_chain seen
             (CreatedbStmt "db" [ {| defname := "owner"; arg := "alice" |};
                                  {| defname := "template"; arg := "t0" |};
                                  {| defname := "template"; arg := "t1" |} ])
             "CREATE DATABASE db" 0 true 0 0 enforcing in
  calls r = [call_standard ProcessUtility;
             call_database_post_create 16385 (Some "t0")] /\
  sepgsql_context_info (final r) = sepgsql_context_info enforcing.
Proof. split; reflexivity. Qed.

(** START of a trusted procedure checks the transition, with the
    client's own label as the subject, before switching; ABORT right
    after puts the client's label back. *)
Example scenario_start_then_abort :
  let subject_is_client :=
    {| peercon := peercon policy;
       trusted_proc := trusted_proc policy;
       allowed := allowed policy;
       allowed_label := fun w _ _ _ =>
         match client_label w with
         | Some l => String.eqb l client_t
         | None => false
         end |} in
  let started := sepgsql_fmgr_hook no_chain subject_is_client FHET_START
                   func42 (None, enforcing) in
  let aborted := sepgsql_fmgr_hook no_chain subject_is_client FHET_ABORT
                   func42 (final started) in
  out started = Ok tt /\
  calls started =
    [call_avc_trusted_proc 42;
     call_avc_check_perms_label trusted_t SEPG_CLASS_PROCESS
       SEPG_PROCESS__TRANSITION AUDIT_NULL true] /\
  client_label (snd (final started)) = Some trusted_t /\
  out aborted = Ok tt /\
  client_label (snd (final aborted)) = Some client_t.
Proof. repeat split; reflexivity. Qed.

(** * Further properties of [hooks.c] *)

Lemma bind_silent S A B (m : Comp S A) (k : A -> Comp S B) s a s' :
  m s = Result (Ok a) s' [] ->
  bind m k s = k a s'.
Proof. intros E. unfold bind. rewrite E. simpl. apply result_eta. Qed.

(** ** What the nested dispatch sees *)



Section HandOver.
Variable Host : Type.
Variable chain : HookChain Host.
Variable callee : Callees Host.



(** [sepgsql_executor_start] as a run of its delegate. *)
Lemma executor_start_run :
  forall queryDesc eflags (w : world Host),
    let d := delegate_ExecutorStart chain callee queryDesc eflags
               (executor_entry_state queryDesc w) in
    sepgsql_executor_start chain callee queryDesc eflags w =
    Result (out d)
           (if returns_control (out d)
            then with_context_info (sepgsql_context_info w) (final d)
            else final d)
           (calls d).
Proof.
  intros queryDesc eflags w d.
  rewrite executor_start_guarded, guarded_spec.
  assert (E : forall (pre : M Host unit) (k : M Host unit),
             pre w = Result (Ok tt) (executor_entry_state queryDesc w) [] ->
             (pre ;; k) w = k (executor_entry_state queryDesc w)).
  { intros pre k Hpre. exact (@bind_silent _ _ _ pre (fun _ => k) _ tt _ Hpre). }
  rewrite E; [reflexivity|].
  unfold executor_entry_state.
  destruct (operation queryDesc); reflexivity.
Qed.

(** X3.  [sepgsql_executor_start] runs the stacked hook (the standard
    ExecutorStart if none is stacked) in a state where the command
    kind is SELECT, INSERT, DELETE or UPDATE after the operation of
    the query, and is left as it was for any other operation.  Outcome
    and outbound calls are the delegate's; the state is the delegate's
    with the context put back when control returns. *)
Theorem executor_start_hands_over :
  forall queryDesc eflags (w : world Host),
    let d := delegate_ExecutorStart chain callee queryDesc eflags
               (executor_entry_state queryDesc w) in
    sepgsql_executor_start chain callee queryDesc eflags w =
    Result (out d)
           (if returns_control (out d)
            then with_context_info (sepgsql_context_info w) (final d)
            else final d)
           (calls d).
Proof.
  intros queryDesc eflags w d.
  rewrite executor_start_guarded, guarded_spec.
  assert (E : forall (pre : M Host unit) (k : M Host unit),
             pre w = Result (Ok tt) (executor_entry_state queryDesc w) [] ->
             (pre ;; k) w = k (executor_entry_state queryDesc w)).
  { intros pre k Hpre. exact (@bind_silent _ _ _ pre (fun _ => k) _ tt _ Hpre). }
  rewrite E; [reflexivity|].
  unfold executor_entry_state.
  destruct (operation queryDesc); reflexivity.
Qed.

End HandOver.

(** ** Dispatch on the object class *)

Section ClassDispatch.
Variable Host : Type.
Variable chain : HookChain Host.
Variable callee : Callees Host.

Lemma bind_then_runs (d : M Host unit) (c : call) (h : M Host unit)
    (w : world Host) :
  out (d w) = Ok tt ->
  then_runs (d w) c (h (final (d w))) ((d ;; emit c ;; h) w).
Proof.
  intros Hd. rewrite (bind_ok _ _ _ Hd). unfold then_runs, bind, emit. simpl.
  destruct (out (h (final (d w)))); simpl; auto.
Qed.

(** X4.  A creation-completed event on a database, a schema, a
    function or a column (sub-id other than 0 on the relation class)
    reaches its handler whatever the command kind of the current
    context is, once the stacked hook has returned; the allow-list
    applies to whole relations only.  The database handler is given
    the template name of the current context; the column handler is
    given the sub-id. *)
Theorem post_create_reaches_class_handler :
  forall objectId subId (w : world Host),
    (let d := delegate_object_access chain OAT_POST_CREATE DatabaseRelationId
                objectId subId w in
     out d = Ok tt ->
     let dtemplate := createdb_dtemplate (sepgsql_context_info (final d)) in
     then_runs d (call_database_post_create objectId dtemplate)
       (database_post_create callee objectId dtemplate (final d))
       (sepgsql_object_access chain callee OAT_POST_CREATE DatabaseRelationId
          objectId subId w))
    /\
    (let d := delegate_object_access chain OAT_POST_CREATE NamespaceRelationId
                objectId subId w in
     out d = Ok tt ->
     then_runs d (call_schema_post_create objectId)
       (schema_post_create callee objectId (final d))
       (sepgsql_object_access chain callee OAT_POST_CREATE NamespaceRelationId
          objectId subId w))
    /\
    (let d := delegate_object_access chain OAT_POST_CREATE ProcedureRelationId
                objectId subId w in
     out d = Ok tt ->
     then_runs d (call_proc_post_create objectId)
       (proc_post_create callee objectId (final d))
       (sepgsql_object_access chain callee OAT_POST_CREATE ProcedureRelationId
          objectId subId w))
    /\
    (let d := delegate_object_access chain OAT_POST_CREATE RelationRelationId
                objectId subId w in
     out d = Ok tt ->
     subId <> 0 ->
     then_runs d (call_attribute_post_create objectId subId)
       (attribute_post_create callee objectId subId (final d))
       (sepgsql_object_access chain callee OAT_POST_CREATE RelationRelationId
          objectId subId w)).
Proof.
  intros objectId subId w. split; [|split; [|split]].
  - intros d Hd dtemplate. subst d dtemplate.
    unfold sepgsql_object_access.
    fold (delegate_object_access chain OAT_POST_CREATE DatabaseRelationId
            objectId subId) in *.
    rewrite (bind_ok _ _ _ Hd). simpl.
    unfold then_runs, sepgsql_database_post_create, bind, emit. simpl.
    match goal with |- context [out ?h] => destruct (out h) end; simpl; auto.
  - intros d Hd. subst d.
    apply (bind_then_runs
             (delegate_object_access chain OAT_POST_CREATE NamespaceRelationId
                objectId subId) _ (schema_post_create callee objectId) _ Hd).
  - intros d Hd. subst d.
    apply (bind_then_runs
             (delegate_object_access chain OAT_POST_CREATE ProcedureRelationId
                objectId subId) _ (proc_post_create callee objectId) _ Hd).
  - intros d Hd Hsub. subst d.
    pose proof (bind_then_runs
             (delegate_object_access chain OAT_POST_CREATE RelationRelationId
                objectId subId) (call_attribute_post_create objectId subId)
             (attribute_post_create callee objectId subId) _ Hd) as H.
    unfold sepgsql_object_access.
    fold (delegate_object_access chain OAT_POST_CREATE RelationRelationId
            objectId subId).
    apply Z.eqb_neq in Hsub. simpl. rewrite Hsub. exact H.
Qed.

(** X5.  An access type other than creation-completed is an error:
    once the stacked hook has returned, [sepgsql_object_access] raises
    [ERROR] "unexpected object access type" whatever the class, and
    calls no handler. *)
Theorem unexpected_access_type_is_an_error :
  forall code classId objectId subId (w : world Host),
    let d := delegate_object_access chain (OAT_unknown code) classId objectId
               subId w in
    out d = Ok tt ->
    sepgsql_object_access chain callee (OAT_unknown code) classId objectId
      subId w =
    Result (Err (Ereport ERROR ERRCODE_INTERNAL_ERROR
                         "unexpected object access type: %d"))
           (final d) (calls d).
Proof.
  intros code classId objectId subId w d Hd.
  unfold sepgsql_object_access.
  fold (delegate_object_access chain (OAT_unknown code) classId objectId subId).
  rewrite (bind_ok _ _ _ Hd). fold d. simpl. now rewrite app_nil_r.
Qed.

End ClassDispatch.

(** ** Stacked hooks that fail, and the order of the oracle queries *)

Section Stacking.
Variable Host : Type.
Variable chain : HookChain Host.
Variable callee : Callees Host.
Variable oracle : Oracle Host.

Lemma bind_fails S A B (m : Comp S A) (k : A -> Comp S B) s f :
  out (m s) = Err f ->
  out (bind m k s) = Err f /\
  final (bind m k s) = final (m s) /\
  calls (bind m k s) = calls (m s).
Proof. intros E. rewrite (bind_err _ _ _ E). auto. Qed.

(** X6.  A failure of the stacked hook passes through the four hooks
    that delegate first ([sepgsql_client_auth],
    [sepgsql_object_access], [sepgsql_exec_check_perms],
    [sepgsql_needs_fmgr_hook]) as it is: same failure, same state,
    same calls, and this layer does nothing of its own (no peer label
    lookup, no handler, no policy query). *)
Theorem stacked_failure_passes_through :
  forall failure (w : world Host),
    (forall port status,
       let d := delegate_client_auth chain port status w in
       let r := sepgsql_client_auth chain oracle port status w in
       out d = Err failure ->
       out r = Err failure /\ final r = final d /\ calls r = calls d)
    /\
    (forall access classId objectId subId,
       let d := delegate_object_access chain access classId objectId subId w in
       let r := sepgsql_object_access chain callee access classId objectId
                  subId w in
       out d = Err failure ->
       out r = Err failure /\ final r = final d /\ calls r = calls d)
    /\
    (forall rangeTabls abort,
       let d := delegate_exec_check_perms chain rangeTabls abort w in
       let r := sepgsql_exec_check_perms chain callee rangeTabls abort w in
       out d = Err failure ->
       out r = Err failure /\ final r = final d /\ calls r = calls d)
    /\
    (forall functionId,
       let d := delegate_needs_fmgr chain functionId w in
       let r := sepgsql_needs_fmgr_hook chain oracle functionId w in
       out d = Err failure ->
       out r = Err failure /\ final r = final d /\ calls r = calls d).
Proof.
  intros failure w. split; [|split; [|split]]; intros; apply bind_fails;
    assumption.
Qed.

(** X7.  [sepgsql_needs_fmgr_hook] asks the oracle as little as it
    can, in a fixed order: nothing when the stacked hook answered yes;
    otherwise the trusted-procedure lookup, and only when that finds
    no label the [db_procedure:{execute}] check, made without audit
    and without abort, so that a denial is an answer and never an
    error. *)
Theorem needs_fmgr_hook_queries :
  forall functionId (w : world Host) stacked,
    let d := delegate_needs_fmgr chain functionId w in
    let r := sepgsql_needs_fmgr_hook chain oracle functionId w in
    out d = Ok stacked ->
    calls r =
    calls d ++
    (if stacked then []
     else call_avc_trusted_proc functionId ::
          match trusted_proc oracle (final d) functionId with
          | Some _ => []
          | None =>
              [call_avc_check_perms
                 {| classId := ProcedureRelationId;
                    objectId := functionId;
                    objectSubId := 0 |}
                 SEPG_CLASS_DB_PROCEDURE SEPG_DB_PROCEDURE__EXECUTE
                 SEPGSQL_AVC_NOAUDIT false]
          end).
Proof.
  intros functionId w stacked d r Hd.
  subst r. unfold sepgsql_needs_fmgr_hook.
  fold (delegate_needs_fmgr chain functionId).
  rewrite (bind_ok _ _ _ Hd). fold d.
  destruct stacked; simpl; [reflexivity|].
  unfold bind, sepgsql_avc_trusted_proc, sepgsql_avc_check_perms, emit, get,
    ret. simpl.
  destruct (trusted_proc oracle (final d) functionId); simpl; [reflexivity|].
  match goal with |- context [allowed ?o ?w ?a ?b ?c] =>
    destruct (allowed o w a b c) end; reflexivity.
Qed.

End Stacking.

(** ** More on [sepgsql_fmgr_hook] *)

Section Activations.
Variable Host : Type.
Variable chain : HookChain Host.
Variable oracle : Oracle Host.

(** The stacked hook sees and changes one word of the area only. *)
Lemma delegate_fmgr_area event flinfo (stack : fmgr_stack) (w : world Host) :
  let d := delegate_fmgr chain event flinfo (Some stack, w) in
  exists np w',
    final d = (Some {| old_label := old_label stack;
                       new_label := new_label stack;
                       next_private := np |}, w').
Proof.
  unfold delegate_fmgr, call_if_set.
  destruct (next_fmgr_hook chain) as [h|]; simpl.
  - unfold bind, emit, with_next_private. simpl.
    destruct (h event flinfo (next_private stack, w)) as [[[]|f] [np w'] c];
      simpl; eauto.
  - exists (next_private stack), w. destruct stack; reflexivity.
Qed.

Lemma delegate_fmgr_returns event flinfo (stack : fmgr_stack) (w : world Host) :
  (forall h, next_fmgr_hook chain = Some h ->
             forall ev fl s, out (h ev fl s) = Ok tt) ->
  out (delegate_fmgr chain event flinfo (Some stack, w)) = Ok tt.
Proof.
  intros Hh. unfold delegate_fmgr, call_if_set.
  destruct (next_fmgr_hook chain) as [h|] eqn:E; simpl; [|reflexivity].
  unfold bind, emit, with_next_private. simpl.
  rewrite (Hh h eq_refl). reflexivity.
Qed.

(** START on an area that remembers no label. *)
Lemma fmgr_start_idle :
  forall flinfo (stack : fmgr_stack) (w : world Host),
    old_label stack = None ->
    sepgsql_fmgr_hook chain oracle FHET_START flinfo (Some stack, w) =
    delegate_fmgr chain FHET_START flinfo (started_state stack w).
Proof.
  intros flinfo [ol nl np] w Hold. simpl in Hold. subst ol.
  rewrite fmgr_start_on_area. simpl.
  rewrite (@bind_silent _ _ _ (Assert true "!(stack->old_label)") _
             (Some {| old_label := None; new_label := nl; next_private := np |}, w)
             tt _ eq_refl).
  destruct nl as [nl|]; unfold started_state; simpl.
  - refine (@bind_silent _ _ _ _ _ _ tt _ _). reflexivity.
  - refine (@bind_silent _ _ _ _ _ _ tt _ _). reflexivity.
Qed.

(** X8.  START on an area that exists and remembers no label (every
    activation but the first of a function) asks the oracle nothing:
    the target label found at the first activation is used again, and
    the transition is not checked again.  The label is switched and
    the previous one remembered before the stacked hook runs; for a
    function without a target label nothing is switched. *)
Theorem start_on_idle_area :
  forall flinfo (stack : fmgr_stack) (w : world Host),
    old_label stack = None ->
    sepgsql_fmgr_hook chain oracle FHET_START flinfo (Some stack, w) =
    delegate_fmgr chain FHET_START flinfo (started_state stack w).
Proof.
  intros flinfo [ol nl np] w Hold. simpl in Hold. subst ol.
  rewrite fmgr_start_on_area. simpl.
  rewrite (@bind_silent _ _ _ (Assert true "!(stack->old_label)") _
             (Some {| old_label := None; new_label := nl; next_private := np |}, w)
             tt _ eq_refl).
  destruct nl as [nl|]; unfold started_state; simpl.
  - refine (@bind_silent _ _ _ _ _ _ tt _ _). reflexivity.
  - refine (@bind_silent _ _ _ _ _ _ tt _ _). reflexivity.
Qed.

(** X9.  START on an empty slot looks the target label up once; when
    there is one, the [process:transition] permission is checked, with
    abort, in the state START was called in, that is with the client's
    own label as the subject and before any switch; when there is none,
    no permission is checked and no label is switched.  The area is
    then created and START goes on as on an idle area. *)
Theorem start_on_empty_slot :
  forall flinfo (w : world Host),
    let trusted := trusted_proc oracle w (fn_oid flinfo) in
    (forall nl, trusted = Some nl ->
       allowed_label oracle w nl SEPG_CLASS_PROCESS SEPG_PROCESS__TRANSITION
       = true) ->
    let fresh := {| old_label := None; new_label := trusted;
                    next_private := 0 |} in
    let d := delegate_fmgr chain FHET_START flinfo (started_state fresh w) in
    sepgsql_fmgr_hook chain oracle FHET_START flinfo (None, w) =
    Result (out d) (final d)
           (call_avc_trusted_proc (fn_oid flinfo) ::
            match trusted with
            | Some nl =>
                [call_avc_check_perms_label nl SEPG_CLASS_PROCESS
                   SEPG_PROCESS__TRANSITION AUDIT_NULL true]
            | None => []
            end ++ calls d).
Proof.
  intros flinfo w trusted Hallowed fresh d.
  pose proof (fmgr_start_idle flinfo fresh w eq_refl) as Hidle.
  rewrite fmgr_start_on_area in Hidle. fold d in Hidle.
  unfold sepgsql_fmgr_hook. fold (delegate_fmgr chain FHET_START flinfo).
  rewrite (bind_pure _ _ (a := (None : slot))) by reflexivity.
  match goal with
  | |- bind ?m ?k (None, w) = Result _ _ (?c :: ?cs ++ _) =>
      assert (P : m (None, w) = Result (Ok fresh) (Some fresh, w) (c :: cs))
  end.
  { unfold bind, lift, sepgsql_avc_trusted_proc,
      sepgsql_avc_check_perms_label, set_private, modify, emit, get, ret,
      ereport, raise. simpl. subst fresh. fold trusted.
    destruct trusted as [nl|] eqn:T; simpl; [|reflexivity].
    rewrite (Hallowed nl eq_refl). reflexivity. }
  rewrite (bind_known _ _ _ P). cbv beta.
  rewrite Hidle. reflexivity.
Qed.

(** X11.  END and ABORT put a label back only when the area remembers
    one and the stacked hook has returned.  If the area remembers none
    (the function has no target label), or if the stacked hook fails,
    the result is the stacked hook's alone: the client label is not
    written and the area is as the stacked hook left it; after a
    failure of the stacked hook the remembered label is still in the
    area and the client label is still the switched one. *)
Theorem end_without_restoration :
  forall flinfo event (stack : fmgr_stack) (w : world Host),
    event = FHET_END \/ event = FHET_ABORT ->
    let d := delegate_fmgr chain event flinfo (Some stack, w) in
    old_label stack = None \/ out d <> Ok tt ->
    sepgsql_fmgr_hook chain oracle event flinfo (Some stack, w) = d.
Proof.
  intros flinfo event stack w Hevent d Hcase.
  assert (R : sepgsql_fmgr_hook chain oracle event flinfo (Some stack, w) =
              bind (delegate_fmgr chain event flinfo)
                (fun _ =>
                   do stack <- deref ;
                   match old_label stack with
                   | Some ol => lift (sepgsql_set_client_label (Some ol)) ;; ret tt
                   | None => ret tt
                   end ;;
                   set_old_label None) (Some stack, w))
    by (destruct Hevent; subst; reflexivity).
  rewrite R.
  destruct (out d) as [[]|f] eqn:Hd.
  - destruct Hcase as [Hold|Hne]; [|congruence].
    destruct (delegate_fmgr_area event flinfo stack w) as (np & w' & A).
    rewrite (bind_ok _ _ _ Hd). fold d in A |- *. rewrite A.
    unfold bind, deref, get_private, gets, ret. simpl. rewrite Hold.
    unfold set_old_label, set_private, modify, bind, deref, get_private, gets,
      ret. simpl.
    rewrite Hold in A. rewrite app_nil_r. clear R.
    clearbody d. destruct d as [o fin c]. simpl in *. subst. reflexivity.
  - rewrite (bind_err _ _ _ Hd). fold d. rewrite <- Hd. apply result_eta.
Qed.

(** One activation on an idle area of a trusted procedure: START
    returns, and whatever the wrapped call does, END or ABORT returns
    with the label put back and the area idle again. *)
Lemma activation_round flinfo (a : activation Host) (stack : fmgr_stack)
    (w : world Host) label0 (k : F Host slot unit) :
  (forall h, next_fmgr_hook chain = Some h ->
             forall ev fl s, out (h ev fl s) = Ok tt) ->
  ending a = FHET_END \/ ending a = FHET_ABORT ->
  old_label stack = None ->
  new_label stack <> None ->
  client_label w = Some label0 ->
  exists stack' w',
    old_label stack' = None /\
    new_label stack' = new_label stack /\
    client_label w' = Some label0 /\
    out ((sepgsql_fmgr_hook chain oracle FHET_START flinfo ;;
          modify (fun s => (fst s, wrapped_call a (snd s))) ;;
          sepgsql_fmgr_hook chain oracle (ending a) flinfo ;;
          k) (Some stack, w)) = out (k (Some stack', w')) /\
    final ((sepgsql_fmgr_hook chain oracle FHET_START flinfo ;;
            modify (fun s => (fst s, wrapped_call a (snd s))) ;;
            sepgsql_fmgr_hook chain oracle (ending a) flinfo ;;
            k) (Some stack, w)) = final (k (Some stack', w')).
Proof.
  intros Hh Hevent Hold Htrusted Hlabel.
  destruct (new_label stack) as [nl|] eqn:Hnew; [clear Htrusted|congruence].
  (* START *)
  pose proof (fmgr_start_idle flinfo stack w Hold) as Hstart.
  unfold started_state in Hstart. rewrite Hnew in Hstart.
  set (area := {| old_label := client_label w; new_label := Some nl;
                  next_private := next_private stack |}) in Hstart.
  destruct (delegate_fmgr_area FHET_START flinfo area
              (with_client_label (Some nl) w)) as (np1 & w1 & A1).
  pose proof (delegate_fmgr_returns FHET_START flinfo area
                (with_client_label (Some nl) w) Hh) as O1.
  rewrite <- Hstart in A1, O1.
  rewrite (bind_ok _ _ _ O1), A1. simpl.
  (* the wrapped call *)
  set (area1 := {| old_label := client_label w; new_label := Some nl;
                   next_private := np1 |}).
  (* END or ABORT *)
  assert (Hold1 : old_label area1 = Some label0) by exact Hlabel.
  destruct (fmgr_end_restores chain oracle flinfo area1 (wrapped_call a w1)
              Hevent Hold1)
    as [Hret Hres].
  specialize (Hret (delegate_fmgr_returns (ending a) flinfo area1
                      (wrapped_call a w1) Hh)).
  destruct (Hres Hret) as (Hl & stack' & Hs & Ho & Hn).
  rewrite (bind_ok _ _ _ Hret). simpl.
  destruct (final (sepgsql_fmgr_hook chain oracle (ending a) flinfo
                     (Some area1, wrapped_call a w1))) as [s3 w3].
  simpl in Hl, Hs. subst s3.
  exists stack', w3. auto.
Qed.

(** X12.  An area serves any number of activations.  Starting from an
    idle area of a trusted procedure, with stacked hooks that return,
    any sequence of activations (START, a wrapped call doing anything
    to the backend, then END or ABORT) runs to its end, leaves the
    client label as it was before the first START, and leaves the area
    idle with the same target label. *)
Theorem activations_restore_label :
  forall flinfo (l : list (activation Host)) (stack : fmgr_stack)
         (w : world Host) label0,
    (forall h, next_fmgr_hook chain = Some h ->
               forall ev fl s, out (h ev fl s) = Ok tt) ->
    Forall (fun a => ending a = FHET_END \/ ending a = FHET_ABORT) l ->
    old_label stack = None ->
    new_label stack <> None ->
    client_label w = Some label0 ->
    let r := activations chain oracle flinfo l (Some stack, w) in
    out r = Ok tt /\
    client_label (snd (final r)) = Some label0 /\
    exists stack',
      fst (final r) = Some stack' /\
      old_label stack' = None /\
      new_label stack' = new_label stack.
Proof.
  intros flinfo l.
  induction l as [|a rest IH]; intros stack w label0 Hh Hall Hold Htrusted Hlabel.
  - simpl. repeat split; auto. exists stack. auto.
  - inversion Hall as [|? ? Ha Hrest]; subst.
    cbn [activations].
    destruct (@activation_round flinfo a stack w label0
                (activations chain oracle flinfo rest) Hh Ha Hold Htrusted
                Hlabel)
      as (stack' & w' & Ho & Hn & Hl & Eo & Ef).
    cbv zeta. rewrite Eo, Ef.
    assert (Htrusted' : new_label stack' <> None) by congruence.
    destruct (IH stack' w' label0 Hh Hrest Ho Htrusted' Hl)
      as (R1 & R2 & stack'' & R3 & R4 & R5).
    repeat split; auto. exists stack''. repeat split; auto. congruence.
Qed.

End Activations.

(** ** Module load: [_PG_init] *)

Section ModuleLoad.
Variable Host : Type.
Variable env : Loader Host.

Lemma on_backend_known A (m : M Host A) (p : process Host) o b c :
  m (backend p) = Result o b c ->
  on_backend m p =
  Result o {| backend := b; installed := installed p; saved := saved p |} c.
Proof. intros E. unfold on_backend. rewrite E. reflexivity. Qed.

(** The seven pairs of assignments and the reset of the context. *)
Lemma hooks_are_chained (p : process Host) :
  (chain_hook client_auth ;;
   chain_hook object_access ;;
   chain_hook exec_check_perms ;;
   chain_hook needs_fmgr ;;
   chain_hook fmgr ;;
   chain_hook ProcessUtility ;;
   chain_hook ExecutorStart ;;
   on_backend (modify (with_context_info zeroed_context_info))) p =
  Result (Ok tt)
         {| backend := with_context_info zeroed_context_info (backend p);
            installed := sepgsql_hooks;
            saved := installed p |}
         [].
Proof. destruct p as [b [i1 i2 i3 i4 i5 i6 i7] s]. reflexivity. Qed.

Lemma on_backend_post A B (m : M Host A) (k : A -> Comp (process Host) B)
    (p : process Host) (Q : outcome B -> process Host -> Prop) :
  (forall a, out (m (backend p)) = Ok a ->
     Q (out (k a {| backend := final (m (backend p));
                    installed := installed p; saved := saved p |}))
       (final (k a {| backend := final (m (backend p));
                      installed := installed p; saved := saved p |}))) ->
  (forall f, out (m (backend p)) = Err f ->
     Q (Err f) {| backend := final (m (backend p));
                  installed := installed p; saved := saved p |}) ->
  Q (out (bind (on_backend m) k p)) (final (bind (on_backend m) k p)).
Proof.
  intros Hok Herr. unfold bind, on_backend. simpl.
  destruct (out (m (backend p))); simpl; auto.
Qed.

(** The ways [_PG_init] can go: either it leaves every hook variable
    alone (it failed, or SELinux is not enabled), or it returned with
    all of them chained, after taking the label of the server. *)
Lemma PG_init_cases (p : process Host) :
  let r := _PG_init env p in
  (installed (final r) = installed p /\
   saved (final r) = saved p /\
   (out r <> Ok tt \/ selinux_enabled env (backend p) < 1))
  \/
  (out r = Ok tt /\
   1 <= selinux_enabled env (backend p) /\
   installed (final r) = sepgsql_hooks /\
   saved (final r) = installed p /\
   exists context b3 b4,
     out (avc_init env b3) = Ok tt /\
     client_label b3 = Some context /\
     b4 = final (avc_init env b3) /\
     out (register_label_provider env SEPGSQL_LABEL_TAG b4) = Ok tt /\
     backend (final r) =
       with_context_info zeroed_context_info
         (final (register_label_provider env SEPGSQL_LABEL_TAG b4))).
Proof.
  intros r.
  pattern (out r), (final r).
  match goal with |- ?Q _ _ => set (P := Q) end.
  subst r. unfold _PG_init.
  destruct (IsUnderPostmaster env).
  { subst P. cbv beta. left. simpl. repeat split. left. discriminate. }
  (* is_selinux_enabled *)
  apply on_backend_post; [intros enabled E | intros f E; discriminate E].
  injection E as <-. cbn [backend installed saved gets final].
  destruct (Z.ltb_spec (selinux_enabled env (backend p)) 1) as [Hdis|Hen].
  { subst P. cbv beta. left. simpl. repeat split. right. exact Hdis. }
  (* sepgsql.permissive *)
  apply on_backend_post; intros v1 E1;
    [|subst P; cbv beta; left; simpl; repeat split; left; discriminate].
  cbn [backend installed saved]. set (b1 := final _).
  apply on_backend_post; [intros [] _ | intros f E; discriminate E].
  cbn [backend installed saved modify final].
  (* sepgsql.debug_audit *)
  apply on_backend_post; intros v2 E2;
    [|subst P; cbv beta; left; simpl; repeat split; left; discriminate].
  cbn [backend installed saved]. set (b2 := final _).
  apply on_backend_post; [intros [] _ | intros f E; discriminate E].
  cbn [backend installed saved modify final].
  (* the label of the server *)
  apply on_backend_post; [intros context E | intros f E; discriminate E].
  injection E as <-. cbn [backend installed saved gets final].
  match goal with |- context [owncon env ?w] =>
    destruct (owncon env w) as [context|] eqn:Hcon end.
  2:{ subst P. cbv beta. left. simpl. repeat split. left. discriminate. }
  apply on_backend_post; [intros old _ | intros f E; discriminate E].
  cbn [backend installed saved].
  match goal with |- context [final (sepgsql_set_client_label ?l ?w)] =>
    set (b3 := final (sepgsql_set_client_label l w)) end.
  (* the access vector cache, the label provider *)
  apply on_backend_post; intros u3 E3;
    [|subst P; cbv beta; left; simpl; repeat split; left; discriminate].
  cbn [backend installed saved] in *.
  apply on_backend_post; intros u4 E4;
    [|subst P; cbv beta; left; simpl; repeat split; left; discriminate].
  cbn [backend installed saved] in *.
  rewrite hooks_are_chained.
  subst P. cbv beta. right. cbn [out final installed saved backend].
  repeat split; [lia|].
  exists context, b3, (final (avc_init env b3)).
  destruct u3, u4. cbn [backend] in E3, E4. repeat split; assumption.
Qed.

(** X13.  [_PG_init] chains all seven hooks or none.  If it returns
    with SELinux enabled, every hook variable of the host points to
    this module, every [next_*_hook] holds what the host's variable
    held before, and the contextual information is zeroed.  If it
    fails (loaded under the postmaster, GUC definition, server label
    or cache initialization failing), or if SELinux is not enabled,
    no hook variable of either side is written. *)
Theorem PG_init_chains_all_hooks_or_none :
  forall (p : process Host),
    let r := _PG_init env p in
    (out r = Ok tt -> 1 <= selinux_enabled env (backend p) ->
     installed (final r) = sepgsql_hooks /\
     saved (final r) = installed p /\
     sepgsql_context_info (backend (final r)) = zeroed_context_info)
    /\
    (out r <> Ok tt \/ selinux_enabled env (backend p) < 1 ->
     installed (final r) = installed p /\ saved (final r) = saved p).
Proof.
  intros p r. subst r.
  destruct (PG_init_cases p) as [(Hi & Hs & Hwhy)|(Ho & Hen & Hi & Hs & Hrest)].
  - split.
    + intros Hok Hen. destruct Hwhy as [Hne|Hdis]; [contradiction|lia].
    + auto.
  - split.
    + intros _ _. destruct Hrest as (context & b3 & b4 & _ & _ & _ & _ & Hb).
      rewrite Hb. auto.
    + intros [Hne|Hdis]; [contradiction|lia].
Qed.

(** X14.  Loaded under the postmaster (not through
    [shared_preload_libraries]), [_PG_init] raises an error and touches
    nothing.  Otherwise, when SELinux is not enabled, it sets the mode
    to Disabled and returns at once: none of the later steps is run
    (no GUC is defined, no label is taken, no hook is chained). *)
Theorem PG_init_refuses_or_disables :
  forall (p : process Host),
    (IsUnderPostmaster env = true ->
     _PG_init env p =
     Result (Err (Ereport ERROR ERRCODE_OBJECT_NOT_IN_PREREQUISITE_STATE
                          "sepgsql must be loaded via shared_preload_libraries"))
            p [])
    /\
    (IsUnderPostmaster env = false ->
     selinux_enabled env (backend p) < 1 ->
     _PG_init env p =
     Result (Ok tt)
            {| backend := with_mode SEPGSQL_MODE_DISABLED (backend p);
               installed := installed p;
               saved := saved p |}
            []).
Proof.
  intros p. unfold _PG_init. split.
  - intros ->. reflexivity.
  - intros -> Hdis. apply Z.ltb_lt in Hdis.
    destruct p as [b i s].
    rewrite (@bind_silent _ _ _ (on_backend (gets (selinux_enabled env))) _
               {| backend := b; installed := i; saved := s |}
               (selinux_enabled env b) _ eq_refl).
    cbn [backend] in Hdis. rewrite Hdis. reflexivity.
Qed.

(** X15.  After a load that returned with SELinux enabled the client
    label is set (not NULL): it is the label [getcon_raw] gave for the
    server process, provided the initialization of the access vector
    cache and the registration of the label provider leave the client
    label alone. *)
Theorem PG_init_sets_server_label :
  forall (p : process Host),
    (forall w, client_label (final (avc_init env w)) = client_label w) ->
    (forall tag w,
       client_label (final (register_label_provider env tag w)) =
       client_label w) ->
    let r := _PG_init env p in
    out r = Ok tt ->
    1 <= selinux_enabled env (backend p) ->
    exists context, client_label (backend (final r)) = Some context.
Proof.
  intros p Havc Hreg r Hok Hen. subst r.
  destruct (PG_init_cases p) as [(_ & _ & Hwhy)|(_ & _ & _ & _ & Hrest)].
  - destruct Hwhy as [Hne|Hdis]; [contradiction|lia].
  - destruct Hrest as (context & b3 & b4 & _ & Hl & Hb4 & _ & Hb).
    exists context. rewrite Hb. cbn [with_context_info client_label].
    rewrite Hreg, Hb4, Havc. exact Hl.
Qed.

End ModuleLoad.

(** ** Object creation inside a nested dispatch *)

Section CreationInsideDispatch.
Variable Host : Type.
Variable chain : HookChain Host.
Variable callee : Callees Host.

Lemma delegate_running_event (event : M Host unit) (w : world Host) :
  (forall parsetree queryString params isTopLevel dest tag,
     exists marker,
       calls (delegate_ProcessUtility (chain_running chain event)
                (callee_running callee event) parsetree queryString params
                isTopLevel dest tag w) = marker :: calls (event w))
  /\
  (forall queryDesc eflags,
     exists marker,
       calls (delegate_ExecutorStart (chain_running chain event)
                (callee_running callee event) queryDesc eflags w)
       = marker :: calls (event w)).
Proof.
  split; intros;
    [unfold delegate_ProcessUtility | unfold delegate_ExecutorStart];
    unfold chain_running, callee_running; simpl.
  - destruct (next_ProcessUtility_hook chain); unfold bind, emit; simpl;
      destruct (out (event w)); simpl; eauto.
  - destruct (next_ExecutorStart_hook chain); unfold bind, emit; simpl;
      destruct (out (event w)); simpl; eauto.
Qed.


(** X17.  ExecutorStart and the creation of a relation compose: when a
    whole relation is created while [sepgsql_executor_start] runs its
    delegate, and no object-access hook is stacked, the relation
    handler is called if the query is a SELECT (SELECT INTO) and is
    not called if it is an INSERT, a DELETE or an UPDATE; for any other
    operation the command kind of the surrounding context decides. *)
Theorem relation_created_during_executor_start :
  forall queryDesc eflags relOid (w : world Host),
    next_object_access_hook chain = None ->
    let event := sepgsql_object_access chain callee OAT_POST_CREATE
                   RelationRelationId relOid 0 in
    let r := enter chain callee (via_ExecutorStart queryDesc eflags) event w in
    let st := executor_entry_state queryDesc w in
    let checked := creates_relation (cmdtype (sepgsql_context_info st)) in
    (exists marker,
       calls r =
       marker ::
       (if checked
        then call_relation_post_create relOid ::
             calls (relation_post_create callee relOid st)
        else []))
    /\
    checked =
      match operation queryDesc with
      | CMD_SELECT => true
      | CMD_INSERT | CMD_DELETE | CMD_UPDATE => false
      | _ => creates_relation (cmdtype (sepgsql_context_info w))
      end.
Proof.
  intros queryDesc eflags relOid w Hnone event r st checked.
  split.
  - subst r. unfold enter. rewrite executor_start_run. cbn [calls].
    fold st.
    destruct (proj2 (delegate_running_event event st) queryDesc eflags)
      as [marker Hcalls].
    rewrite Hcalls. exists marker. f_equal.
    subst event. unfold sepgsql_object_access, call_if_set. rewrite Hnone.
    rewrite (bind_pure _ _ (a := tt)) by reflexivity.
    simpl. fold checked.
    destruct checked; [|reflexivity].
    unfold sepgsql_relation_post_create, bind, emit. simpl.
    destruct (out (relation_post_create callee relOid st)); reflexivity.
  - subst checked st. unfold executor_entry_state.
    destruct (operation queryDesc); reflexivity.
Qed.

End CreationInsideDispatch.

(** * The further properties on the small session and process *)

Import Startup.


Lemma post_create_reaches_class_handler_witness :
  out (delegate_object_access no_chain OAT_POST_CREATE RelationRelationId
         16384 3 in_cluster) = Ok tt /\
  3 <> 0 /\
  calls (sepgsql_object_access no_chain quiet OAT_POST_CREATE
           RelationRelationId 16384 3 in_cluster) =
  [call_attribute_post_create 16384 3].
Proof.
  assert (N : 3 <> 0) by discriminate.
  split; [reflexivity|]. split; [exact N|].
  exact (proj2 (proj2 (proj2 (proj2 (proj2
           (@post_create_reaches_class_handler unit no_chain quiet 16384 3
              in_cluster))) eq_refl N))).
Defined.

Lemma unexpected_access_type_is_an_error_witness :
  out (delegate_object_access stacked_chain (OAT_unknown 1)
         RelationRelationId 16384 0 enforcing) = Ok tt /\
  sepgsql_object_access stacked_chain quiet (OAT_unknown 1) RelationRelationId
    16384 0 enforcing =
  Result (Err (Ereport ERROR ERRCODE_INTERNAL_ERROR
                       "unexpected object access type: %d"))
         enforcing [call_next object_access].
Proof.
  split; [reflexivity|].
  exact (@unexpected_access_type_is_an_error unit stacked_chain quiet 1
           RelationRelationId 16384 0 enforcing eq_refl).
Defined.

Lemma stacked_failure_passes_through_witness :
  out (delegate_exec_check_perms failing_chain [1] true enforcing) =
  Err (Ereport ERROR ERRCODE_INTERNAL_ERROR "stacked") /\
  calls (sepgsql_exec_check_perms failing_chain quiet [1] true enforcing) =
  calls (delegate_exec_check_perms failing_chain [1] true enforcing).
Proof.
  split; [reflexivity|].
  exact (proj2 (proj2 (proj1 (proj2 (proj2
           (@stacked_failure_passes_through unit failing_chain quiet policy
              (Ereport ERROR ERRCODE_INTERNAL_ERROR "stacked") enforcing)))
           [1] true eq_refl))).
Defined.

Lemma needs_fmgr_hook_queries_witness :
  out (delegate_needs_fmgr stacked_chain 7 enforcing) = Ok false /\
  calls (sepgsql_needs_fmgr_hook stacked_chain policy 7 enforcing) =
  [call_next needs_fmgr;
   call_avc_trusted_proc 7;
   call_avc_check_perms
     {| classId := ProcedureRelationId; objectId := 7; objectSubId := 0 |}
     SEPG_CLASS_DB_PROCEDURE SEPG_DB_PROCEDURE__EXECUTE SEPGSQL_AVC_NOAUDIT
     false].
Proof.
  split; [reflexivity|].
  exact (@needs_fmgr_hook_queries unit stacked_chain policy 7 enforcing false
           eq_refl).
Defined.

Lemma start_on_idle_area_witness :
  old_label idle_area = None /\
  sepgsql_fmgr_hook no_chain transition_denied FHET_START func42
    (Some idle_area, enforcing) =
  Result (Ok tt)
         (Some {| old_label := Some client_t;
                  new_label := Some trusted_t;
                  next_private := 0 |},
          with_client_label (Some trusted_t) enforcing)
         [].
Proof.
  split; [reflexivity|].
  exact (@start_on_idle_area unit no_chain transition_denied func42 idle_area
           enforcing eq_refl).
Defined.

Lemma start_on_empty_slot_witness :
  (forall nl, trusted_proc policy enforcing (fn_oid func42) = Some nl ->
     allowed_label policy enforcing nl SEPG_CLASS_PROCESS
       SEPG_PROCESS__TRANSITION = true) /\
  sepgsql_fmgr_hook no_chain policy FHET_START func42 (None, enforcing) =
  Result (Ok tt)
         (Some {| old_label := Some client_t;
                  new_label := Some trusted_t;
                  next_private := 0 |},
          with_client_label (Some trusted_t) enforcing)
         [call_avc_trusted_proc 42;
          call_avc_check_perms_label trusted_t SEPG_CLASS_PROCESS
            SEPG_PROCESS__TRANSITION AUDIT_NULL true].
Proof.
  assert (H : forall nl,
             trusted_proc policy enforcing (fn_oid func42) = Some nl ->
             allowed_label policy enforcing nl SEPG_CLASS_PROCESS
               SEPG_PROCESS__TRANSITION = true)
    by (intros nl _; reflexivity).
  split; [exact H|].
  exact (@start_on_empty_slot unit no_chain policy func42 enforcing H).
Defined.

Lemma fmgr_start_denied_before_swap_witness :
  trusted_proc transition_denied enforcing (fn_oid func42) = Some trusted_t /\
  allowed_label transition_denied enforcing trusted_t SEPG_CLASS_PROCESS
    SEPG_PROCESS__TRANSITION = false /\
  final (sepgsql_fmgr_hook stacked_chain transition_denied FHET_START func42
           (None, enforcing)) = (None, enforcing).
Proof.
  split; [reflexivity|]. split; [reflexivity|].
  exact (f_equal (@final _ _)
           (@fmgr_start_denied_before_swap unit stacked_chain transition_denied
              func42 enforcing trusted_t eq_refl eq_refl)).
Defined.

Lemma end_without_restoration_witness :
  let stack := {| old_label := Some client_t;
                  new_label := Some trusted_t;
                  next_private := 0 |} in
  let w := with_client_label (Some trusted_t) enforcing in
  (FHET_END = FHET_END \/ FHET_END = FHET_ABORT) /\
  (old_label stack = None \/
   out (delegate_fmgr failing_chain FHET_END func42 (Some stack, w)) <> Ok tt) /\
  final (sepgsql_fmgr_hook failing_chain policy FHET_END func42 (Some stack, w))
  = (Some stack, w).
Proof.
  intros stack w.
  assert (E : FHET_END = FHET_END \/ FHET_END = FHET_ABORT)
    by (left; reflexivity).
  assert (H : old_label stack = None \/
              out (delegate_fmgr failing_chain FHET_END func42 (Some stack, w))
              <> Ok tt) by (right; discriminate).
  split; [exact E|]. split; [exact H|].
  exact (f_equal (@final _ _)
           (@end_without_restoration unit failing_chain policy func42 FHET_END
              stack w E H)).
Defined.

Lemma activations_restore_label_witness :
  (forall h, next_fmgr_hook counting_chain = Some h ->
             forall ev fl s, out (h ev fl s) = Ok tt) /\
  Forall (fun a : activation unit =>
            ending a = FHET_END \/ ending a = FHET_ABORT) two_calls /\
  old_label idle_area = None /\
  new_label idle_area <> None /\
  client_label enforcing = Some client_t /\
  client_label
    (snd (final (activations counting_chain policy func42 two_calls
                   (Some idle_area, enforcing)))) = Some client_t.
Proof.
  assert (Hh : forall h, next_fmgr_hook counting_chain = Some h ->
                         forall ev fl s, out (h ev fl s) = Ok tt).
  { intros h E ev fl s. injection E as <-. reflexivity. }
  assert (Hall : Forall (fun a : activation unit =>
                           ending a = FHET_END \/ ending a = FHET_ABORT)
                        two_calls).
  { constructor; [left; reflexivity|].
    constructor; [right; reflexivity|]. constructor. }
  assert (Hn : new_label idle_area <> None) by discriminate.
  split; [exact Hh|]. split; [exact Hall|]. split; [reflexivity|].
  split; [exact Hn|]. split; [reflexivity|].
  exact (proj1 (proj2 (@activations_restore_label unit counting_chain policy
                         func42 two_calls idle_area enforcing client_t Hh Hall
                         eq_refl Hn eq_refl))).
Defined.

Lemma PG_init_chains_all_hooks_or_none_witness :
  out (_PG_init postmaster_start fresh_process) = Ok tt /\
  1 <= selinux_enabled postmaster_start (backend fresh_process) /\
  installed (final (_PG_init postmaster_start fresh_process)) = sepgsql_hooks /\
  saved (final (_PG_init postmaster_start fresh_process)) = other_module.
Proof.
  assert (H : 1 <= selinux_enabled postmaster_start (backend fresh_process))
    by (simpl; lia).
  split; [reflexivity|]. split; [exact H|].
  pose proof (proj1 (@PG_init_chains_all_hooks_or_none unit postmaster_start
                       fresh_process) eq_refl H) as [Hi [Hs _]].
  split; [exact Hi|exact Hs].
Defined.

Lemma PG_init_refuses_or_disables_witness :
  IsUnderPostmaster without_selinux = false /\
  selinux_enabled without_selinux (backend fresh_process) < 1 /\
  _PG_init without_selinux fresh_process =
  Result (Ok tt)
         {| backend := with_mode SEPGSQL_MODE_DISABLED (backend fresh_process);
            installed := other_module;
            saved := no_hooks |}
         [].
Proof.
  assert (H : selinux_enabled without_selinux (backend fresh_process) < 1)
    by (simpl; lia).
  split; [reflexivity|]. split; [exact H|].
  exact (proj2 (@PG_init_refuses_or_disables unit without_selinux
                  fresh_process) eq_refl H).
Defined.

Lemma PG_init_sets_server_label_witness :
  (forall w : world unit,
     client_label (final (avc_init postmaster_start w)) = client_label w) /\
  (forall tag (w : world unit),
     client_label (final (register_label_provider postmaster_start tag w)) =
     client_label w) /\
  out (_PG_init postmaster_start fresh_process) = Ok tt /\
  1 <= selinux_enabled postmaster_start (backend fresh_process) /\
  exists context,
    client_label (backend (final (_PG_init postmaster_start fresh_process))) =
    Some context.
Proof.
  assert (H1 : forall w : world unit,
             client_label (final (avc_init postmaster_start w)) =
             client_label w) by (intros w; reflexivity).
  assert (H2 : forall tag (w : world unit),
             client_label
               (final (register_label_provider postmaster_start tag w)) =
             client_label w) by (intros tag w; reflexivity).
  assert (H : 1 <= selinux_enabled postmaster_start (backend fresh_process))
    by (simpl; lia).
  split; [exact H1|]. split; [exact H2|]. split; [reflexivity|].
  split; [exact H|].
  exact (@PG_init_sets_server_label unit postmaster_start fresh_process H1 H2
           eq_refl H).
Defined.


Lemma relation_created_during_executor_start_witness :
  next_object_access_hook no_chain = None /\
  creates_relation
    (cmdtype (sepgsql_context_info
                (executor_entry_state
                   {| operation := CMD_INSERT; plannedstmt := 0 |} in_create_table)))
  = false.
Proof.
  split; [reflexivity|].
  exact (proj2 (@relation_created_during_executor_start unit no_chain quiet
                  {| operation := CMD_INSERT; plannedstmt := 0 |} 0 16384
                  in_create_table eq_refl)).
Defined.
